(** * MAGScore 7.0 — the Behavioral Signal Resolution Core

    A shallow embedding of [magscore/engine/definitions.py],
    [behavior_engine.py], [pattern_engine.py] and [match_flow.py], and the
    properties of the three resolvers ([BehaviorEngine.compute_behaviors],
    [PatternEngine.compute_patterns], [MatchFlowReconstructor.reconstruct]).

    Conventions.
    - Python [float] is IEEE binary64: Rocq's primitive [float].
    - Python [str] is a byte string holding the UTF-8 text; equality and
      ordering of UTF-8 strings coincide with those of the code points.
    - A [dict] is an association list in insertion order; a [set] used only
      for membership is a list.
    - [sorted] is stable: it is modelled by a stable insertion sort. *)

From Stdlib Require Import Floats ZArith String Ascii DecimalString.
From Stdlib Require Import Bool Arith Lia List Permutation Sorted.
Import ListNotations.

Local Open Scope string_scope.
Local Open Scope list_scope.

(* ======================================================================= *)
(** * Python builtins used by the engine *)
(* ======================================================================= *)

Module Py.

(** [x in s] for a list or set of strings. *)
Definition mem (x : string) (s : list string) : bool :=
  existsb (String.eqb x) s.

(** [s.add(x)]. *)
Definition set_add (x : string) (s : list string) : list string :=
  if mem x s then s else s ++ [x].

(** [s.update(xs)]. *)
Definition set_update (s xs : list string) : list string :=
  fold_left (fun acc x => set_add x acc) xs s.

(** [set(xs)]: the distinct elements. *)
Definition set_of (xs : list string) : list string := set_update [] xs.

(** [a.issubset(b)]. *)
Definition issubset (a b : list string) : bool :=
  forallb (fun x => mem x b) a.

(** [a == b] for two sets. *)
Definition set_eq (a b : list string) : bool :=
  issubset a b && issubset b a.

(** [d.get(k)] on a dict with string keys. *)
Fixpoint dict_get {V : Type} (d : list (string * V)) (k : string) : option V :=
  match d with
  | [] => None
  | (k', v) :: rest => if String.eqb k k' then Some v else dict_get rest k
  end.

(** Stable insertion: [x] goes before the first element it is [<=] to. *)
Fixpoint insert_by {A : Type} (le : A -> A -> bool) (x : A) (l : list A) : list A :=
  match l with
  | [] => [x]
  | y :: rest => if le x y then x :: y :: rest else y :: insert_by le x rest
  end.

(** [sorted(l, key=...)], with [le a b] standing for [key(a) <= key(b)]. *)
Definition sorted {A : Type} (le : A -> A -> bool) (l : list A) : list A :=
  fold_right (insert_by le) [] l.

(** [sorted(l)] on strings. *)
Definition sorted_str (l : list string) : list string := sorted String.leb l.

(** [s.startswith(p)]. *)
Definition startswith (s p : string) : bool := String.prefix p s.

Definition upper_ascii (c : ascii) : ascii :=
  let n := nat_of_ascii c in
  if Nat.leb 97 n && Nat.leb n 122 then ascii_of_nat (n - 32) else c.

Definition lower_ascii (c : ascii) : ascii :=
  let n := nat_of_ascii c in
  if Nat.leb 65 n && Nat.leb n 90 then ascii_of_nat (n + 32) else c.

Fixpoint map_string (f : ascii -> ascii) (s : string) : string :=
  match s with
  | EmptyString => EmptyString
  | String c rest => String (f c) (map_string f rest)
  end.

(** [s.upper()] and [s.lower()], on ASCII text (the registry's category
    names are ASCII; other bytes are left as they are). *)
Definition upper (s : string) : string := map_string upper_ascii s.
Definition lower (s : string) : string := map_string lower_ascii s.

(** [s.capitalize()], on ASCII text. *)
Definition capitalize (s : string) : string :=
  match s with
  | EmptyString => EmptyString
  | String c rest => String (upper_ascii c) (lower rest)
  end.

(** [s[:n]], on ASCII text. *)
Definition take (n : nat) (s : string) : string := substring 0 n s.

(** [str(n)] for a non-negative int. *)
Definition str_of_nat (n : nat) : string :=
  NilZero.string_of_uint (Nat.to_uint n).

(** [float(n)] for an int [0 <= n < 2^53] (exact). *)
Definition float_of_Z (n : Z) : float := PrimFloat.of_uint63 (Uint63.of_Z n).

Definition float_of_nat (n : nat) : float := float_of_Z (Z.of_nat n).

(** [sum(l)] on floats: left to right from 0.  (From CPython 3.12 on,
    [sum] carries a compensation term; on one or two floats both give the
    same double.) *)
Definition sum (l : list float) : float :=
  fold_left PrimFloat.add l 0%float.

(** [num / den] rounded to the nearest integer, ties to even
    ([0 <= num], [0 < den]). *)
Definition round_half_even (num den : Z) : Z :=
  let q := (num / den)%Z in
  let r := (num mod den)%Z in
  match (2 * r ?= den)%Z with
  | Lt => q
  | Gt => (q + 1)%Z
  | Eq => if Z.even q then q else (q + 1)%Z
  end.

(** [round(x, 3)]: CPython prints the exact binary value of [x] with 3
    digits after the point, correctly rounded (ties to even), and reads
    the decimal back as the nearest double.  NaN and the infinities are
    returned as they are.  A finite [x = m * 2^e] with [e > -10] sits on a
    grid coarser than 0.001, so the nearest double to its 3-digit decimal
    is [x] itself; otherwise the decimal is [n / 1000] with [n < 2^53],
    and the correctly rounded division gives the nearest double. *)
Definition round3 (x : float) : float :=
  match Prim2SF x with
  | S754_finite s m e =>
      if (-10 <? e)%Z then x
      else
        let n := round_half_even (Z.pos m * 1000) (2 ^ (- e)) in
        let r := (float_of_Z n / 1000)%float in
        if s then (- r)%float else r
  | _ => x
  end.

End Py.

(* ======================================================================= *)
(** * definitions.py — the signal registry *)
(* ======================================================================= *)

Module definitions.

(** [SIGNAL_ACTIVATION_THRESHOLD = 0.6]: the double nearest to 0.6. *)
Definition SIGNAL_ACTIVATION_THRESHOLD : float := 0x1.3333333333333p-1%float.

Definition MIN_REQUIRED_SIGNALS : nat := 2.

(** [PONDERATION_FACTOR = 1.5]. *)
Definition PONDERATION_FACTOR : float := 1.5%float.

Definition TIME_SLICES : list string := ["global"; "last_15_min"].

(** One entry of [BEHAVIOR_DEFINITIONS] (the free-text [description] is
    read by nothing and is left out). *)
Record BehaviorSpec : Type := mkSpec {
  spec_code : string;
  spec_name : string;
  spec_name_en : option string;
  spec_category : string;
  spec_required_signals : list string;
  spec_priority_zone : string;
  spec_contradicts : list string;
  spec_min_convergence : nat
}.

Definition BEHAVIOR_DEFINITIONS : list (string * BehaviorSpec) :=
  [ ("STB_01", mkSpec "STB_01" "Effondrement Structurel" (Some "Structural Collapse")
                 "stability" ["low_block_drop"; "xg_against_spike"]
                 "last_15_min" ["STB_02"] MIN_REQUIRED_SIGNALS);
    ("STB_02", mkSpec "STB_02" "Verrouillage Tactique" (Some "Tactical Lock")
                 "stability" ["high_compactness"; "successful_low_block"]
                 "global" ["STB_01"] MIN_REQUIRED_SIGNALS);
    ("INT_01", mkSpec "INT_01" "Surge de Pressing" (Some "Pressing Surge")
                 "intensity" ["pressing_wave"; "high_duel_pressure"]
                 "global" ["INT_02"] MIN_REQUIRED_SIGNALS);
    ("INT_02", mkSpec "INT_02" "Déclin Physique" (Some "Physical Decline")
                 "intensity" ["running_distance_drop"; "duel_loss_spike"]
                 "last_15_min" ["INT_01"] MIN_REQUIRED_SIGNALS);
    ("PSY_01", mkSpec "PSY_01" "Frustration Active" (Some "Active Frustration")
                 "psychology" ["fouls_spike"; "protest_pattern"]
                 "last_15_min" ["PSY_02"] MIN_REQUIRED_SIGNALS);
    ("PSY_02", mkSpec "PSY_02" "Résilience" (Some "Resilience")
                 "psychology" ["high_defensive_recovery"; "late_pressing_effort"]
                 "last_15_min" ["PSY_01"] MIN_REQUIRED_SIGNALS) ].

Definition CONTRADICTION_PAIRS : list (string * string) :=
  [ ("STB_01", "STB_02"); ("INT_01", "INT_02"); ("PSY_01", "PSY_02") ].

(** [code in pair] for a 2-tuple. *)
Definition in_pair (c : string) (pair : string * string) : bool :=
  String.eqb c (fst pair) || String.eqb c (snd pair).

(** [are_behaviors_contradicting]: some pair holds both codes. *)
Definition are_behaviors_contradicting (code_a code_b : string) : bool :=
  existsb (fun pair => in_pair code_a pair && in_pair code_b pair)
          CONTRADICTION_PAIRS.

Definition CATEGORIES : list string := ["stability"; "intensity"; "psychology"].



Definition VISUAL_REQUIRED_SIGNALS : list string :=
  [ "VIS_CLUSTER_LOW"; "VIS_CLUSTER_MED"; "VIS_CLUSTER_HIGH";
    "VIS_PRESS_LOW"; "VIS_PRESS_MED"; "VIS_PRESS_HIGH" ].

Definition FORBIDDEN_MEMORY_KEYS : list string :=
  [ "score"; "result"; "winner"; "loser"; "odds"; "bet"; "betting"; "cote";
    "pari"; "prono"; "prediction"; "final_score"; "match_result" ].


(** [KeyError(message)]. *)
Inductive KeyError : Type := mkKeyError (message : string).

(** [get_behavior(code)]: the entry, or the [KeyError] it raises. *)
Definition get_behavior (code : string) : KeyError + BehaviorSpec :=
  match Py.dict_get BEHAVIOR_DEFINITIONS code with
  | Some behavior => inr behavior
  | None => inl (mkKeyError ("Comportement inconnu : " ++ code))
  end.




(** [get_required_signals_for_behavior(code)]. *)
Definition get_required_signals_for_behavior (code : string) : KeyError + list string :=
  match get_behavior code with
  | inr behavior => inr (spec_required_signals behavior)
  | inl e => inl e
  end.


(** [is_forbidden_memory_key(key)].  [key.lower()] is modelled on ASCII
    letters; the only other characters whose lower case holds an ASCII
    letter are the Kelvin sign (k) and the dotted capital I (i followed by a
    combining dot), and no forbidden key holds a k or a combining dot. *)
Definition is_forbidden_memory_key (key : string) : bool :=
  let key_lower := Py.lower key in
  Py.mem key_lower FORBIDDEN_MEMORY_KEYS.

End definitions.

(* ======================================================================= *)
(** * behavior_engine.py *)
(* ======================================================================= *)

Module behavior_engine.
Import definitions.

(** [class BehaviorStatus(Enum)] and its [.value]. *)
Inductive BehaviorStatus : Type := ACTIVE | INACTIVE | AMBIGUOUS | CANCELLED.

Definition status_value (s : BehaviorStatus) : string :=
  match s with
  | ACTIVE => "ACTIVE"
  | INACTIVE => "INACTIVE"
  | AMBIGUOUS => "AMBIGUOUS"
  | CANCELLED => "CANCELLED"
  end.

Definition ENGINE_VERSION : string := "2.3".
Definition RECENCY_MODEL : string := "last_15_priority".

(** [CATEGORY_ORDER.get(category, 99)]. *)
Definition CATEGORY_ORDER : list (string * nat) :=
  [ ("psychology", 0); ("intensity", 1); ("stability", 2) ].

Definition category_rank (order : list (string * nat)) (category : string) : nat :=
  match Py.dict_get order category with
  | Some r => r
  | None => 99
  end.

(** The dict the engine builds for one behavior.  Every key but ["details"]
    is always present; the optional fields are those the engine sets to
    [None] in an AMBIGUOUS entry (["details"] is absent from ACTIVE ones). *)
Record DetectedBehavior : Type := mkBehavior {
  code : string;
  label : string;
  label_en : string;
  category : string;
  intensity : option float;
  time_slice : option string;
  status : string;
  signals_count : option nat;
  signals_required : option nat;
  raw_values : option (list float);
  details : option (list string)
}.

(** [self] of [BehaviorEngine]. *)
Record BehaviorEngine : Type := mkEngine {
  _definitions : list (string * BehaviorSpec);
  _threshold : float;
  _min_signals : nat;
  _ponderation : float
}.

(** An engine over a registry, with the constants [__init__] installs. *)
Definition engine_of (definitions : list (string * BehaviorSpec)) : BehaviorEngine :=
  mkEngine definitions SIGNAL_ACTIVATION_THRESHOLD MIN_REQUIRED_SIGNALS PONDERATION_FACTOR.

(** [BehaviorEngine()]. *)
Definition create_behavior_engine : BehaviorEngine := engine_of BEHAVIOR_DEFINITIONS.

Definition SignalMap : Type := list (string * float).
Definition TimeSlices : Type := list (string * SignalMap).

(** [time_slices.get(priority_zone, {})]. *)
Definition slice_of (time_slices : TimeSlices) (zone : string) : SignalMap :=
  match Py.dict_get time_slices zone with
  | Some d => d
  | None => []
  end.

(** [[float(slice_data.get(k, 0.0)) for k in required_signals]]. *)
Definition extracted_values (slice_data : SignalMap) (required : list string) : list float :=
  map (fun sig_key => match Py.dict_get slice_data sig_key with
                      | Some v => v
                      | None => 0%float
                      end) required.

(** [[v for v in extracted_values if v >= self._threshold]]. *)
Definition active_signals (self : BehaviorEngine) (values : list float) : list float :=
  filter (fun v => PrimFloat.leb (_threshold self) v) values.

Definition active_of (self : BehaviorEngine) (time_slices : TimeSlices)
           (spec : BehaviorSpec) : list float :=
  active_signals self
    (extracted_values (slice_of time_slices (spec_priority_zone spec))
                      (spec_required_signals spec)).

(** [sum(active) / len(active)]. *)
Definition mean (active : list float) : float :=
  (Py.sum active / Py.float_of_nat (length active))%float.

(** The intensity before rounding: the mean, times the ponderation factor
    when 3 signals or more are active. *)
Definition weighted_intensity (self : BehaviorEngine) (active : list float) : float :=
  if Nat.leb 3 (length active)
  then (mean active * _ponderation self)%float
  else mean active.

(** Body of the PHASE 1 loop for one registry entry: [None] stands for
    [continue]. *)
Definition detect (self : BehaviorEngine) (time_slices : TimeSlices)
           (entry : string * BehaviorSpec) : option DetectedBehavior :=
  let (code, spec) := entry in
  let values := extracted_values (slice_of time_slices (spec_priority_zone spec))
                                 (spec_required_signals spec) in
  let active := active_signals self values in
  if Nat.ltb (length active) (_min_signals self) then None
  else Some {|
    code := code;
    label := spec_name spec;
    label_en := match spec_name_en spec with
                | Some n => n
                | None => spec_name spec
                end;
    category := spec_category spec;
    intensity := Some (Py.round3 (weighted_intensity self active));
    time_slice := Some (spec_priority_zone spec);
    status := status_value ACTIVE;
    signals_count := Some (length active);
    signals_required := Some (length (spec_required_signals spec));
    raw_values := Some values;
    details := None
  |}.

(** PHASE 1: the raw behaviors, in registry order. *)
Fixpoint raw_behaviors (self : BehaviorEngine) (time_slices : TimeSlices)
         (definitions : list (string * BehaviorSpec)) : list DetectedBehavior :=
  match definitions with
  | [] => []
  | entry :: rest =>
      match detect self time_slices entry with
      | Some b => b :: raw_behaviors self time_slices rest
      | None => raw_behaviors self time_slices rest
      end
  end.

(** PHASE 1: the [signals_processed] counter. *)
Definition signals_read (definitions : list (string * BehaviorSpec)) : nat :=
  fold_left (fun n entry => n + length (spec_required_signals (snd entry)))
            definitions 0.

(** Grouping into a dict of lists: [if k not in d: d[k] = []; d[k].append(b)]. *)
Fixpoint group_insert {A : Type} (k : string) (b : A)
         (groups : list (string * list A)) : list (string * list A) :=
  match groups with
  | [] => [(k, [b])]
  | (k', bs) :: rest =>
      if String.eqb k k' then (k', bs ++ [b]) :: rest
      else (k', bs) :: group_insert k b rest
  end.

Definition group_by {A : Type} (key : A -> string) (l : list A) : list (string * list A) :=
  fold_left (fun groups b => group_insert (key b) b groups) l [].

Definition in_slice (slice : string) (b : DetectedBehavior) : bool :=
  match time_slice b with
  | Some s => String.eqb s slice
  | None => false
  end.

(** (1) [_merge_slices]. *)
Definition merge_variants (variants : list DetectedBehavior) : list DetectedBehavior :=
  match variants with
  | [] => []
  | [v] => [v]
  | v0 :: _ =>
      match find (in_slice "last_15_min") variants with
      | Some v => [v]
      | None => [v0]
      end
  end.

Definition _merge_slices (behaviors : list DetectedBehavior) : list DetectedBehavior :=
  match behaviors with
  | [] => behaviors
  | _ => flat_map (fun g => merge_variants (snd g)) (group_by code behaviors)
  end.

(** (2) [_apply_recency_strategy]. *)
Definition recency_group (cat_behaviors : list DetectedBehavior) : list DetectedBehavior :=
  if Nat.leb (length cat_behaviors) 1 then cat_behaviors
  else
    let global_behaviors := filter (in_slice "global") cat_behaviors in
    let last_15_behaviors := filter (in_slice "last_15_min") cat_behaviors in
    match global_behaviors, last_15_behaviors with
    | _ :: _, _ :: _ => last_15_behaviors
    | _, _ => cat_behaviors
    end.

Definition _apply_recency_strategy (behaviors : list DetectedBehavior)
  : list DetectedBehavior :=
  match behaviors with
  | [] => behaviors
  | _ => flat_map (fun g => recency_group (snd g)) (group_by category behaviors)
  end.

(** (3) [_resolve_contradictions]: the double loop over the pairs of codes;
    the state is [(contradiction_found, contradicting_codes)]. *)
Definition note_pair (code_a : string) (st : bool * list string) (code_b : string)
  : bool * list string :=
  if are_behaviors_contradicting code_a code_b
  then (true, Py.set_add code_b (Py.set_add code_a (snd st)))
  else st.

Fixpoint scan_pairs (codes : list string) (st : bool * list string)
  : bool * list string :=
  match codes with
  | [] => st
  | code_a :: rest => scan_pairs rest (fold_left (note_pair code_a) rest st)
  end.

(** The AMBIGU entry built for a category.  [category[:3].upper()] and
    [category.capitalize()] are modelled on ASCII text: the entry is the
    code's for an ASCII category, as the three of the registry are. *)
Definition ambiguous_behavior (category : string) (contradicting_codes : list string)
  : DetectedBehavior :=
  let category_abbrev := Py.upper (Py.take 3 category) in
  {| code := "AMBIGU_" ++ category_abbrev;
     label := "Ambiguïté " ++ Py.capitalize category;
     label_en := "Ambiguous " ++ Py.capitalize category;
     category := category;
     intensity := None;
     time_slice := None;
     status := status_value AMBIGUOUS;
     signals_count := None;
     signals_required := None;
     raw_values := None;
     details := Some contradicting_codes |}.

Definition resolve_group (g : string * list DetectedBehavior) : list DetectedBehavior :=
  let (category, cat_behaviors) := g in
  if Nat.leb (length cat_behaviors) 1 then cat_behaviors
  else
    let codes := map code cat_behaviors in
    let (contradiction_found, contradicting_codes) := scan_pairs codes (false, []) in
    if contradiction_found
    then ambiguous_behavior category contradicting_codes
         :: filter (fun b => negb (Py.mem (code b) contradicting_codes)) cat_behaviors
    else cat_behaviors.

Definition _resolve_contradictions (behaviors : list DetectedBehavior)
  : list DetectedBehavior :=
  match behaviors with
  | [] => behaviors
  | _ => flat_map resolve_group (group_by category behaviors)
  end.

(** (4) [_sort_by_priority]. *)
Definition by_rank (order : list (string * nat)) (a b : DetectedBehavior) : bool :=
  Nat.leb (category_rank order (category a)) (category_rank order (category b)).

Definition _sort_by_priority (behaviors : list DetectedBehavior)
  : list DetectedBehavior :=
  match behaviors with
  | [] => behaviors
  | _ => Py.sorted (by_rank CATEGORY_ORDER) behaviors
  end.

Record Meta : Type := mkMeta {
  source : string;
  version : string;
  timestamp : string;
  signals_processed : nat;
  behaviors_detected : nat;
  time_slices_used : list string;
  recency_model : string
}.

Record BehaviorResult : Type := mkResult {
  behaviors : list DetectedBehavior;
  meta : Meta
}.

(** The behaviors after each stage of PHASE 2. *)
Definition merged (self : BehaviorEngine) (time_slices : TimeSlices) :=
  _merge_slices (raw_behaviors self time_slices (_definitions self)).

Definition after_recency (self : BehaviorEngine) (time_slices : TimeSlices) :=
  _apply_recency_strategy (merged self time_slices).

Definition resolved (self : BehaviorEngine) (time_slices : TimeSlices) :=
  _sort_by_priority (_resolve_contradictions (after_recency self time_slices)).

(** [compute_behaviors(signals, time_slices)].  [utcnow] is what
    [datetime.utcnow().isoformat()] returns when the call reads the clock;
    [signals] is the legacy flat dict, which the body never reads. *)
Definition compute_behaviors (self : BehaviorEngine) (utcnow : string)
           (signals : SignalMap) (time_slices : TimeSlices) : BehaviorResult :=
  let behaviors := resolved self time_slices in
  {| behaviors := behaviors;
     meta := {|
       source := "BehaviorEngine";
       version := ENGINE_VERSION;
       timestamp := utcnow ++ "Z";
       signals_processed := signals_read (_definitions self);
       behaviors_detected :=
         length (filter (fun b => String.eqb (status b) (status_value ACTIVE)) behaviors);
       time_slices_used := map fst time_slices;
       recency_model := RECENCY_MODEL |} |}.







End behavior_engine.

(* ======================================================================= *)
(** * The behavior dicts as the two consumers read them *)
(* ======================================================================= *)

(** [PatternEngine] and [MatchFlowReconstructor] take any list of dicts and
    read four keys with [.get]: [None] is an absent key (for ["time_slice"]
    and ["category"] also a [None] value, which the code treats alike). *)
Record BehaviorDict : Type := mkDict {
  get_code : option string;
  get_status : option string;
  get_time_slice : option string;
  get_category : option string
}.


(** [d.get(k, default)]. *)
Definition get_or (default : string) (v : option string) : string :=
  match v with
  | Some s => s
  | None => default
  end.

(* ======================================================================= *)
(** * pattern_engine.py *)
(* ======================================================================= *)

Module pattern_engine.

Definition PATTERN_ENGINE_VERSION : string := "2.0".

(** A rule: the frozenset of codes (its literal), then [(pattern_code, label)]. *)
Definition Rule : Type := (list string * (string * string))%type.

Definition PATTERN_RULES : list Rule :=
  [ (["STB_01"; "PSY_01"; "INT_02"], ("PTN_03", "Désintégration complète"));
    (["STB_02"; "INT_01"; "PSY_02"], ("PTN_07", "Contrôle total"));
    (["STB_01"; "PSY_01"], ("PTN_01", "Perte de contrôle sous pression"));
    (["STB_01"; "INT_02"], ("PTN_02", "Effondrement par fatigue"));
    (["STB_02"; "INT_01"], ("PTN_04", "Domination tactique active"));
    (["STB_02"; "PSY_02"], ("PTN_05", "Résilience organisée"));
    (["INT_01"; "PSY_02"], ("PTN_06", "Pressing mental"));
    (["INT_01"; "PSY_01"], ("PTN_08", "Agressivité désordonnée"));
    (["INT_02"; "PSY_01"], ("PTN_09", "Déclin émotionnel"));
    (["INT_02"; "PSY_02"], ("PTN_10", "Résilience sous fatigue"));
    (["STB_01"; "INT_01"], ("PTN_11", "Chaos offensif"));
    (["STB_02"; "INT_02"], ("PTN_12", "Verrouillage défensif tardif")) ].

Definition PATTERN_RULES_V2 : list Rule :=
  [ (["STB_01"; "VIS_PRESS_HIGH"], ("PTN_VIS_01", "Défense sous siège visuel"));
    (["INT_01"; "VIS_CLUSTER_HIGH"], ("PTN_VIS_02", "Pressing concentré visuellement"));
    (["STB_01"; "VIS_CLUSTER_LOW"], ("PTN_VIS_03", "Désorganisation spatiale visible"));
    (["STB_02"; "VIS_PRESS_LOW"], ("PTN_VIS_04", "Contrôle visuel de l'espace"));
    (["INT_02"; "VIS_FLOW_LOW"], ("PTN_VIS_05", "Ralentissement visuel du jeu"));
    (["STB_01"; "INT_02"; "VIS_PRESS_HIGH"], ("PTN_VIS_06", "Siège défensif complet")) ].

Record DetectedPattern : Type := mkPattern {
  pattern_code : string;
  label : string;
  sources : list string;
  category : string
}.

(** [self] of [PatternEngine]. *)
Record PatternEngine : Type := mkEngine {
  _rules : list Rule;
  _rules_v2 : list Rule;
  _enable_visual : bool
}.

(** [PatternEngine(enable_visual)]. *)
Definition new_PatternEngine (enable_visual : bool) : PatternEngine :=
  {| _rules := PATTERN_RULES;
     _rules_v2 := if enable_visual then PATTERN_RULES_V2 else [];
     _enable_visual := enable_visual |}.

(** [create_pattern_engine()]. *)
Definition create_pattern_engine : PatternEngine := new_PatternEngine true.

(** [_extract_active_codes]. *)
Definition is_active_code (behavior : BehaviorDict) : bool :=
  let status := get_or "" (get_status behavior) in
  let code := get_or "" (get_code behavior) in
  String.eqb status "ACTIVE"
  && negb (String.eqb code "")
  && negb (Py.startswith code "AMBIGU").

Definition _extract_active_codes (behaviors : list BehaviorDict) : list string :=
  fold_left (fun active behavior =>
               if is_active_code behavior
               then Py.set_add (get_or "" (get_code behavior)) active
               else active)
            behaviors [].

(** The sort key [(-len(rule_set), pattern_code)], as a comparison. *)
Definition rule_le (r1 r2 : Rule) : bool :=
  Nat.ltb (length (fst r2)) (length (fst r1))
  || (Nat.eqb (length (fst r1)) (length (fst r2))
      && String.leb (fst (snd r1)) (fst (snd r2))).

(** The loop state: [patterns], [used_codes], [seen_pattern_codes]. *)
Record State : Type := mkState {
  patterns : list DetectedPattern;
  used_codes : list string;
  seen_pattern_codes : list string
}.

(** [listing s] is [list(s)]: the elements of the frozenset [s] in its
    iteration order, which Python leaves unspecified. *)
Definition make_pattern (listing : list string -> list string) (rule : Rule)
           (category : string) : DetectedPattern :=
  {| pattern_code := fst (snd rule);
     label := snd (snd rule);
     sources := Py.sorted_str (listing (fst rule));
     category := category |}.

(** Body of the first loop (behavior-only rules). *)
Definition step_rule (listing : list string -> list string)
           (active_codes : list string) (st : State) (rule : Rule) : State :=
  let rule_set := fst rule in
  let pattern_code := fst (snd rule) in
  if negb (Py.issubset rule_set active_codes) then st
  else if Py.mem pattern_code (seen_pattern_codes st) then st
  else if Nat.eqb (length rule_set) 3 then
    {| patterns := patterns st ++ [make_pattern listing rule "composite"];
       used_codes := Py.set_update (used_codes st) rule_set;
       seen_pattern_codes := Py.set_add pattern_code (seen_pattern_codes st) |}
  else if Py.issubset rule_set (used_codes st) then st
  else
    {| patterns := patterns st ++ [make_pattern listing rule "composite"];
       used_codes := Py.set_update (used_codes st) rule_set;
       seen_pattern_codes := Py.set_add pattern_code (seen_pattern_codes st) |}.

(** Body of the second loop (visual rules). *)
Definition step_rule_v2 (listing : list string -> list string)
           (all_codes : list string) (st : State) (rule : Rule) : State :=
  let rule_set := fst rule in
  let pattern_code := fst (snd rule) in
  if negb (Py.issubset rule_set all_codes) then st
  else if Py.mem pattern_code (seen_pattern_codes st) then st
  else
    {| patterns := patterns st ++ [make_pattern listing rule "composite_visual"];
       used_codes := used_codes st;
       seen_pattern_codes := Py.set_add pattern_code (seen_pattern_codes st) |}.

(** Truth value of [visual_signals] ([None] and [[]] are false). *)
Definition truthy (visual_signals : option (list string)) : bool :=
  match visual_signals with
  | Some (_ :: _) => true
  | _ => false
  end.

Definition visual_list (visual_signals : option (list string)) : list string :=
  match visual_signals with
  | Some l => l
  | None => []
  end.

(** [compute_patterns(behaviors, visual_signals)]. *)
Definition compute_patterns (self : PatternEngine)
           (listing : list string -> list string)
           (behaviors : list BehaviorDict)
           (visual_signals : option (list string)) : list DetectedPattern :=
  let active_codes := _extract_active_codes behaviors in
  let all_codes :=
    if truthy visual_signals && _enable_visual self
    then Py.set_update active_codes (visual_list visual_signals)
    else active_codes in
  if Nat.ltb (length all_codes) 2 then []
  else
    let st0 := {| patterns := []; used_codes := []; seen_pattern_codes := [] |} in
    let st1 := fold_left (step_rule listing active_codes)
                         (Py.sorted rule_le (_rules self)) st0 in
    let st2 :=
      if _enable_visual self && truthy visual_signals
      then fold_left (step_rule_v2 listing all_codes)
                     (Py.sorted rule_le (_rules_v2 self)) st1
      else st1 in
    patterns st2.

(** [is_triple_pattern(pattern_code)]. *)
Definition is_triple_pattern (self : PatternEngine) (pattern_code : string) : bool :=
  match find (fun r => String.eqb (fst (snd r)) pattern_code) (_rules self) with
  | Some r => Nat.eqb (length (fst r)) 3
  | None =>
      if _enable_visual self then
        match find (fun r => String.eqb (fst (snd r)) pattern_code) (_rules_v2 self) with
        | Some r => Nat.eqb (length (fst r)) 3
        | None => false
        end
      else false
  end.




End pattern_engine.

(* ======================================================================= *)
(** * match_flow.py *)
(* ======================================================================= *)

Module match_flow.

Definition MATCH_FLOW_VERSION : string := "1.1".

(** [(behavior_code, time_slice) -> label]. *)
Definition PHASE_LABELS : list ((string * string) * string) :=
  [ (("STB_01", "global"), "Fragilité structurelle");
    (("STB_01", "last_15_min"), "Effondrement défensif final");
    (("STB_02", "global"), "Contrôle tactique");
    (("STB_02", "last_15_min"), "Verrouillage tardif");
    (("INT_01", "global"), "Intensité active");
    (("INT_01", "last_15_min"), "Pressing final");
    (("INT_02", "global"), "Fatigue précoce");
    (("INT_02", "last_15_min"), "Déclin physique final");
    (("PSY_01", "global"), "Tension émotionnelle");
    (("PSY_01", "last_15_min"), "Frustration finale");
    (("PSY_02", "global"), "Résilience mentale");
    (("PSY_02", "last_15_min"), "Résistance finale") ].

Definition DEFAULT_GLOBAL_LABEL : string := "Phase de stabilisation".
Definition DEFAULT_LAST15_LABEL : string := "Phase finale".

Definition MIN_PHASES : nat := 2.
Definition MAX_PHASES : nat := 5.

Definition RUPTURE_CODES : list string := ["STB_01"; "INT_02"].
Definition RUPTURE_LABEL : string := "Rupture structurelle".

(** [labels.get((code, time_slice))]. *)
Fixpoint labels_get (labels : list ((string * string) * string))
         (code time_slice : string) : option string :=
  match labels with
  | [] => None
  | ((c, t), l) :: rest =>
      if String.eqb code c && String.eqb time_slice t then Some l
      else labels_get rest code time_slice
  end.

(** The local [category_order] of the two phase builders. *)
Definition category_order : list (string * nat) :=
  [ ("stability", 0); ("intensity", 1); ("psychology", 2) ].

Definition by_category (a b : BehaviorDict) : bool :=
  Nat.leb (behavior_engine.category_rank category_order (get_or "" (get_category a)))
          (behavior_engine.category_rank category_order (get_or "" (get_category b))).

(** The loop state of the phase builders: [phases] and [seen_labels]. *)
Definition emit (st : list string * list string) (label : string)
  : list string * list string :=
  if Py.mem label (snd st) then st
  else (fst st ++ [label], Py.set_add label (snd st)).

(** The label looked up by [_build_phases]; [if not label] also sends an
    empty label to the default. *)
Definition phase_label (code time_slice : string) : string :=
  match labels_get PHASE_LABELS code time_slice with
  | Some l =>
      if String.eqb l "" then
        if String.eqb time_slice "last_15_min" then DEFAULT_LAST15_LABEL
        else DEFAULT_GLOBAL_LABEL
      else l
  | None =>
      if String.eqb time_slice "last_15_min" then DEFAULT_LAST15_LABEL
      else DEFAULT_GLOBAL_LABEL
  end.

(** [_build_phases(behaviors, time_slice)]. *)
Definition _build_phases (behaviors : list BehaviorDict) (time_slice : string)
  : list string :=
  match behaviors with
  | [] => []
  | _ =>
      let sorted_behaviors := Py.sorted by_category behaviors in
      fst (fold_left
             (fun st behavior =>
                emit st (phase_label (get_or "" (get_code behavior)) time_slice))
             sorted_behaviors ([], []))
  end.

(** The label looked up by [_build_phases_with_rupture]:
    [labels.get(key, DEFAULT_LAST15_LABEL)]. *)
Definition final_label (code : string) : string :=
  match labels_get PHASE_LABELS code "last_15_min" with
  | Some l => l
  | None => DEFAULT_LAST15_LABEL
  end.

(** [_build_phases_with_rupture(last15_behaviors)]. *)
Definition _build_phases_with_rupture (last15_behaviors : list BehaviorDict)
  : list string :=
  let sorted_behaviors := Py.sorted by_category last15_behaviors in
  let rupture_codes_found :=
    fold_left (fun found behavior =>
                 let code := get_or "" (get_code behavior) in
                 if Py.mem code RUPTURE_CODES then Py.set_add code found else found)
              sorted_behaviors [] in
  let st0 : list string * list string :=
    if Py.set_eq rupture_codes_found RUPTURE_CODES
    then ([RUPTURE_LABEL], [RUPTURE_LABEL])
    else ([], []) in
  fst (fold_left
         (fun st behavior =>
            let code := get_or "" (get_code behavior) in
            if Py.mem code RUPTURE_CODES && Py.mem RUPTURE_LABEL (snd st) then st
            else emit st (final_label code))
         sorted_behaviors st0).

(** One turn of the padding loop. *)
Definition pad_once (phases : list string) : list string :=
  if negb (Py.mem DEFAULT_LAST15_LABEL phases)
  then phases ++ [DEFAULT_LAST15_LABEL]
  else DEFAULT_GLOBAL_LABEL :: phases.

(** [while len(phases) < MIN_PHASES: ...]; every turn adds one phase, so
    [MIN_PHASES] turns are all the loop can take. *)
Fixpoint pad_loop (fuel : nat) (phases : list string) : list string :=
  match fuel with
  | 0 => phases
  | S fuel' =>
      if Nat.ltb (length phases) MIN_PHASES then pad_loop fuel' (pad_once phases)
      else phases
  end.

(** [_apply_limits(phases)]. *)
Definition _apply_limits (phases : list string) : list string :=
  match phases with
  | [] => [DEFAULT_GLOBAL_LABEL; DEFAULT_LAST15_LABEL]
  | _ =>
      let phases :=
        if Nat.ltb (length phases) MIN_PHASES then pad_loop MIN_PHASES phases
        else phases in
      if Nat.ltb MAX_PHASES (length phases) then firstn MAX_PHASES phases
      else phases
  end.

(** The behaviors [reconstruct] keeps: ACTIVE, and not of the AMBIGU family. *)
Definition kept (behavior : BehaviorDict) : bool :=
  match get_status behavior with
  | Some s => String.eqb s "ACTIVE"
  | None => false
  end
  && negb (Py.startswith (get_or "" (get_code behavior)) "AMBIGU").

Definition is_last15 (behavior : BehaviorDict) : bool :=
  String.eqb (get_or "global" (get_time_slice behavior)) "last_15_min".

(** The first loop of [reconstruct] appends each kept behavior to one of
    two lists, in input order. *)
Definition global_behaviors (behaviors : list BehaviorDict) : list BehaviorDict :=
  filter (fun b => kept b && negb (is_last15 b)) behaviors.

Definition last15_behaviors (behaviors : list BehaviorDict) : list BehaviorDict :=
  filter (fun b => kept b && is_last15 b) behaviors.

Definition last15_codes (behaviors : list BehaviorDict) : list string :=
  Py.set_of (map (fun b => get_or "" (get_code b)) (last15_behaviors behaviors)).

Definition has_rupture (behaviors : list BehaviorDict) : bool :=
  Py.issubset RUPTURE_CODES (last15_codes behaviors).

Definition global_phases (behaviors : list BehaviorDict) : list string :=
  _build_phases (global_behaviors behaviors) "global".

Definition final_phases (behaviors : list BehaviorDict) : list string :=
  if has_rupture behaviors
  then _build_phases_with_rupture (last15_behaviors behaviors)
  else _build_phases (last15_behaviors behaviors) "last_15_min".

(** The phases of [reconstruct] before and after [_apply_limits]. *)
Definition derived_phases (behaviors : list BehaviorDict) : list string :=
  global_phases behaviors ++ final_phases behaviors.

Definition limited_phases (behaviors : list BehaviorDict) : list string :=
  _apply_limits (derived_phases behaviors).

(** [f"Phase {i+1} : {phase}"]. *)
Definition numbered (i : nat) (phase : string) : string :=
  "Phase " ++ Py.str_of_nat (i + 1) ++ " : " ++ phase.

(** [[f"Phase {i+1} : {phase}" for i, phase in enumerate(phases)]], from index [i]. *)
Fixpoint enumerate_from (i : nat) (phases : list string) : list string :=
  match phases with
  | [] => []
  | phase :: rest => numbered i phase :: enumerate_from (S i) rest
  end.

(** [reconstruct(behaviors)]. *)
Definition reconstruct (behaviors : list BehaviorDict) : list string :=
  enumerate_from 0 (limited_phases behaviors).



End match_flow.

(* ======================================================================= *)
(** * vision_engine.py — the discrete visual codes *)
(* ======================================================================= *)

Module vision_engine.
Import definitions.


End vision_engine.

(* ======================================================================= *)
(** * quality_control.py — the checks on behaviors and patterns *)
(* ======================================================================= *)

Module quality_control.



(** [status == "ACTIVE" or "status" not in behavior]. *)
Definition counts_as_active (behavior : BehaviorDict) : bool :=
  match get_status behavior with
  | Some status => String.eqb status "ACTIVE"
  | None => true
  end.

(** The [active_codes] set of [_check_contradictions]. *)
Definition active_codes (behaviors : list BehaviorDict) : list string :=
  fold_left (fun active behavior =>
               if counts_as_active behavior
               then Py.set_add (get_or "" (get_code behavior)) active
               else active)
            behaviors [].



End quality_control.

(* ======================================================================= *)
(** * memory_engine.py — the forbidden-key filter and the episodic FIFO *)
(* ======================================================================= *)

Module memory_engine.
Import definitions.

Definition MAX_EPISODES : Z := 10.

(** A value of an ingested [data] dict: a nested dict, or anything else
    ([isinstance(value, dict)] is all the engine asks of a value). *)
#[local] Unset Elimination Schemes.
Inductive Value (A : Type) : Type :=
| Leaf (a : A)
| Dict (entries : list (string * Value A)).
#[local] Set Elimination Schemes.

Arguments Leaf {A} a.
Arguments Dict {A} entries.

(** [f"{prefix}.{key}" if prefix else key]. *)
Definition full_key_of (prefix key : string) : string :=
  if String.eqb prefix "" then key else prefix ++ "." ++ key.

(** The local [check_dict(d, prefix)] of [_check_forbidden_keys], called on
    the dict [value] (a non-dict is never passed); [forbidden_found] is the
    set it fills. *)
Fixpoint check_dict {A : Type} (value : Value A) (prefix : string)
         (forbidden_found : list string) : list string :=
  match value with
  | Leaf _ => forbidden_found
  | Dict entries =>
      (fix items (l : list (string * Value A)) (forbidden_found : list string)
         : list string :=
         match l with
         | [] => forbidden_found
         | (key, value) :: rest =>
             let full_key := full_key_of prefix key in
             let forbidden_found :=
               if is_forbidden_memory_key key
               then Py.set_add full_key forbidden_found
               else forbidden_found in
             items rest (check_dict value full_key forbidden_found)
         end) entries forbidden_found
  end.




(** The [Episode] dataclass ([timestamp] as the clock gave it). *)
Record Episode : Type := mkEpisode {
  match_id : string;
  timestamp : string;
  opposing_style : string;
  behaviors : list string;
  patterns : list string;
  flow_phases : list string
}.

(** [self] of [EpisodicMemory]. *)
Record EpisodicMemory : Type := mkMemory {
  _episodes : list Episode;
  _max_episodes : Z
}.

(** [EpisodicMemory(max_episodes)]. *)
Definition new_EpisodicMemory (max_episodes : Z) : EpisodicMemory :=
  {| _episodes := []; _max_episodes := max_episodes |}.

(** [IndexError], raised by [pop(0)] on an empty list. *)
Inductive IndexError : Type := pop_from_empty_list.

(** [while len(episodes) > max_episodes: episodes.pop(0)]. *)
Fixpoint drop_oldest (max_episodes : Z) (episodes : list Episode)
  : IndexError + list Episode :=
  if (max_episodes <? Z.of_nat (length episodes))%Z then
    match episodes with
    | [] => inl pop_from_empty_list
    | _ :: rest => drop_oldest max_episodes rest
    end
  else inr episodes.

(** [add(episode)]: the memory after the call, or the exception. *)
Definition add (self : EpisodicMemory) (episode : Episode)
  : IndexError + EpisodicMemory :=
  match drop_oldest (_max_episodes self) (_episodes self ++ [episode]) with
  | inr episodes => inr {| _episodes := episodes; _max_episodes := _max_episodes self |}
  | inl e => inl e
  end.




End memory_engine.

(* ======================================================================= *)
(** * Vocabulary of the properties *)
(* ======================================================================= *)

Module props.
Import definitions behavior_engine match_flow.

(** In both phase builders [seen_labels] holds exactly the labels of
    [phases], which are pairwise distinct. *)
Definition emit_inv (st : list string * list string) : Prop :=
  snd st = fst st /\ NoDup (fst st).

(** The labels a GLOBAL-derived and a LAST_15_MIN-derived phase can carry. *)
Definition GLOBAL_LABELS : list string :=
  [ "Fragilité structurelle"; "Contrôle tactique"; "Intensité active";
    "Fatigue précoce"; "Tension émotionnelle"; "Résilience mentale";
    DEFAULT_GLOBAL_LABEL ].

Definition FINAL_LABELS : list string :=
  [ "Effondrement défensif final"; "Verrouillage tardif"; "Pressing final";
    "Déclin physique final"; "Frustration finale"; "Résistance finale";
    DEFAULT_LAST15_LABEL; RUPTURE_LABEL ].

(** Body of the second loop of [_build_phases_with_rupture]. *)
Definition rupture_step (st : list string * list string) (behavior : BehaviorDict)
  : list string * list string :=
  let code := get_or "" (get_code behavior) in
  if Py.mem code RUPTURE_CODES && Py.mem RUPTURE_LABEL (snd st) then st
  else emit st (final_label code).

(** A behavior whose code is outside the rupture signature. *)
Definition not_rupture (b : BehaviorDict) : bool :=
  negb (Py.mem (get_or "" (get_code b)) RUPTURE_CODES).

(** A behavior with code [c] that is ACTIVE in the last 15 minutes. *)
Definition active_last15 (c : string) (behaviors : list BehaviorDict) : Prop :=
  exists b, In b behaviors
            /\ get_code b = Some c
            /\ get_status b = Some "ACTIVE"
            /\ get_time_slice b = Some "last_15_min".

(** [s.endswith(suffix)]. *)
Fixpoint ends_with (suffix s : string) : bool :=
  String.eqb s suffix
  || match s with
     | EmptyString => false
     | String _ rest => ends_with suffix rest
     end.

(** An ACTIVE behavior dict. *)
Definition active_dict (c slice cat : string) : BehaviorDict :=
  mkDict (Some c) (Some "ACTIVE") (Some slice) (Some cat).

(** Five behaviors seen over the whole match, then the rupture signature in
    the last 15 minutes. *)
Definition crowded_match : list BehaviorDict :=
  [ active_dict "STB_01" "global" "stability";
    active_dict "STB_02" "global" "stability";
    active_dict "INT_01" "global" "intensity";
    active_dict "INT_02" "global" "intensity";
    active_dict "PSY_01" "global" "psychology";
    active_dict "STB_01" "last_15_min" "stability";
    active_dict "INT_02" "last_15_min" "intensity" ].

(** The rupture signature with one more behavior in the last 15 minutes. *)
Definition rupture_match : list BehaviorDict :=
  [ active_dict "STB_02" "global" "stability";
    active_dict "PSY_01" "last_15_min" "psychology";
    active_dict "INT_02" "last_15_min" "intensity";
    active_dict "STB_01" "last_15_min" "stability" ].

(** STB_01, INT_01 and PSY_01 ACTIVE together: three categories, so the
    behavior engine can return them in one result. *)
Definition three_doubles_match : list BehaviorDict :=
  [ active_dict "PSY_01" "last_15_min" "psychology";
    active_dict "INT_01" "global" "intensity";
    active_dict "STB_01" "last_15_min" "stability" ].

(** The order [sorted] puts strings in. *)
Definition str_le (a b : string) : Prop := String.leb a b = true.

(** The elements of a list filed under key [k]. *)
Definition same_key {A : Type} (key : A -> string) (k : string) (b : A) : bool :=
  String.eqb (key b) k.

(** What the grouping dict holds once the items [p] have been filed: one
    entry per key met, holding the items with that key in the order they
    came. *)
Record grouped {A : Type} (key : A -> string) (p : list A)
       (g : list (string * list A)) : Prop := mkGrouped {
  grouped_keys : NoDup (map fst g);
  grouped_filter : forall k bs, In (k, bs) g -> bs = filter (same_key key k) p /\ bs <> [];
  grouped_cover : forall b, In b p -> In (key b) (map fst g);
  grouped_perm : Permutation (flat_map snd g) p
}.

(** Two codes that make up one entry of [CONTRADICTION_PAIRS]. *)
Definition registered_pair (code_a code_b : string) : Prop :=
  In (code_a, code_b) CONTRADICTION_PAIRS \/ In (code_b, code_a) CONTRADICTION_PAIRS.

(** As in scenario B: STB_02 over the whole match, STB_01 in the last 15
    minutes (signal values exact in binary64). *)
Definition scenario_B : behavior_engine.TimeSlices :=
  [ ("global", [ ("high_compactness", 0.75%float); ("successful_low_block", 0.625%float) ]);
    ("last_15_min", [ ("low_block_drop", 0.875%float); ("xg_against_spike", 0.75%float) ]) ].

(** Both psychology behaviors in the last 15 minutes. *)
Definition scenario_psy : behavior_engine.TimeSlices :=
  [ ("global", []);
    ("last_15_min", [ ("fouls_spike", 0.75%float); ("protest_pattern", 0.75%float);
                      ("high_defensive_recovery", 0.875%float);
                      ("late_pressing_effort", 0.625%float) ]) ].

(** STB_01 with signals 0.625 and 0.75 (both exact in binary64). *)
Definition scenario_sixteenths : behavior_engine.TimeSlices :=
  [ ("global", []);
    ("last_15_min", [ ("low_block_drop", 0.625%float); ("xg_against_spike", 0.75%float) ]) ].

(** STB_01 with signals 0.75 and 0.875: the mean 0.8125 is a tie between
    0.812 and 0.813. *)
Definition scenario_tie : behavior_engine.TimeSlices :=
  [ ("global", []);
    ("last_15_min", [ ("low_block_drop", 0.75%float); ("xg_against_spike", 0.875%float) ]) ].

(** A registry with one behavior that asks for three signals. *)
Definition TRIPLE_SIGNAL_DEFINITIONS : list (string * BehaviorSpec) :=
  [ ("TRI_01", mkSpec "TRI_01" "Triple" None "stability" ["a"; "b"; "c"]
                 "global" [] MIN_REQUIRED_SIGNALS) ].

Definition scenario_three : behavior_engine.TimeSlices :=
  [ ("global", [ ("a", 0.625%float); ("b", 0.75%float); ("c", 0.875%float) ]) ].

(** The result of [compute_behaviors] with another timestamp. *)
Definition with_timestamp (t : string) (r : BehaviorResult) : BehaviorResult :=
  {| behaviors := behaviors r;
     meta := {| source := source (meta r);
                version := version (meta r);
                timestamp := t;
                signals_processed := signals_processed (meta r);
                behaviors_detected := behaviors_detected (meta r);
                time_slices_used := time_slices_used (meta r);
                recency_model := recency_model (meta r) |} |}.

(** The registry entry of STB_01, and the entry of the 3-signal registry. *)
Definition STB_01_spec : BehaviorSpec :=
  mkSpec "STB_01" "Effondrement Structurel" (Some "Structural Collapse")
         "stability" ["low_block_drop"; "xg_against_spike"]
         "last_15_min" ["STB_02"] MIN_REQUIRED_SIGNALS.

Definition TRI_01_spec : BehaviorSpec :=
  mkSpec "TRI_01" "Triple" None "stability" ["a"; "b"; "c"]
         "global" [] MIN_REQUIRED_SIGNALS.

(** [n / 1000] as a double: the value of a literal with 3 decimals. *)
Definition thousandths (n : Z) : float := (Py.float_of_Z n / 1000)%float.

(** Scenario A: STB_01 signals 0.8 and 0.7 in the last 15 minutes. *)
Definition scenario_A : behavior_engine.TimeSlices :=
  [ ("global", []);
    ("last_15_min", [ ("low_block_drop", thousandths 800);
                      ("xg_against_spike", thousandths 700) ]) ].

(** Scenario B with the values of the text. *)
Definition scenario_B_text : behavior_engine.TimeSlices :=
  [ ("global", [ ("high_compactness", thousandths 800);
                 ("successful_low_block", thousandths 700) ]);
    ("last_15_min", [ ("low_block_drop", thousandths 850);
                      ("xg_against_spike", thousandths 750) ]) ].

End props.
Import props.

(* ======================================================================= *)
(** * Vocabulary of the pattern engine's properties *)
(* ======================================================================= *)

Module pattern_props.
Import pattern_engine.




(** The [all_codes] set of [compute_patterns]. *)
Definition all_codes (self : PatternEngine) (behaviors : list BehaviorDict)
           (visual_signals : option (list string)) : list string :=
  if truthy visual_signals && _enable_visual self
  then Py.set_update (_extract_active_codes behaviors) (visual_list visual_signals)
  else _extract_active_codes behaviors.









End pattern_props.
Import pattern_props.

(* ======================================================================= *)
(** * Vocabulary of the other properties *)
(* ======================================================================= *)

Module engine_props.
Import definitions behavior_engine.














End engine_props.
Import engine_props.

(* ======================================================================= *)
(** * Facts about the builtins *)
(* ======================================================================= *)

Section PyFacts.

Lemma mem_In (x : string) (s : list string) : Py.mem x s = true <-> In x s.
Proof.
  unfold Py.mem. rewrite existsb_exists. split.
  - intros [y [Hy He]]. apply String.eqb_eq in He. now subst.
  - intros H. exists x. split; [assumption | apply String.eqb_refl].
Qed.

Lemma mem_false (x : string) (s : list string) : Py.mem x s = false <-> ~ In x s.
Proof.
  rewrite <- mem_In. destruct (Py.mem x s); split; congruence.
Qed.

Lemma set_add_In (x y : string) (s : list string) :
  In y (Py.set_add x s) <-> y = x \/ In y s.
Proof.
  unfold Py.set_add. destruct (Py.mem x s) eqn:E.
  - apply mem_In in E. split; [now right | intros [-> | H]; assumption].
  - rewrite in_app_iff. simpl. split; intros H; intuition auto.
Qed.

Lemma set_add_NoDup (x : string) (s : list string) :
  NoDup s -> NoDup (Py.set_add x s).
Proof.
  intros H. unfold Py.set_add. destruct (Py.mem x s) eqn:E; [assumption |].
  apply mem_false in E. apply NoDup_app; [assumption | repeat constructor; auto |].
  intros a Ha [<- | []]. contradiction.
Qed.

Lemma set_update_In (xs s : list string) (y : string) :
  In y (Py.set_update s xs) <-> In y s \/ In y xs.
Proof.
  unfold Py.set_update. revert s.
  induction xs as [| x xs IH]; intros s; simpl.
  - tauto.
  - rewrite IH, set_add_In. intuition auto.
Qed.

Lemma set_update_NoDup (xs s : list string) :
  NoDup s -> NoDup (Py.set_update s xs).
Proof.
  unfold Py.set_update. revert s.
  induction xs as [| x xs IH]; intros s H; simpl; [assumption |].
  apply IH, set_add_NoDup, H.
Qed.

Lemma set_of_In (xs : list string) (y : string) : In y (Py.set_of xs) <-> In y xs.
Proof.
  unfold Py.set_of. rewrite set_update_In. simpl. tauto.
Qed.

Lemma issubset_incl (a b : list string) : Py.issubset a b = true <-> incl a b.
Proof.
  unfold Py.issubset, incl. rewrite forallb_forall.
  split; intros H x Hx; apply mem_In, H, Hx.
Qed.

(** A loop that keeps an invariant. *)
Lemma fold_left_invariant {S X : Type} (P : S -> Prop) (f : S -> X -> S)
      (l : list X) (s0 : S) :
  P s0 -> (forall s x, In x l -> P s -> P (f s x)) -> P (fold_left f l s0).
Proof.
  revert s0. induction l as [| x l IH]; intros s0 H0 Hstep; simpl.
  - exact H0.
  - apply IH.
    + apply Hstep; [now left | exact H0].
    + intros s y Hy. apply Hstep. now right.
Qed.

Lemma fold_left_map {S X Y : Type} (f : S -> Y -> S) (g : X -> Y)
      (l : list X) (s0 : S) :
  fold_left (fun s x => f s (g x)) l s0 = fold_left f (map g l) s0.
Proof.
  revert s0. induction l as [| x l IH]; intros s0; simpl; [reflexivity | apply IH].
Qed.

Context {A : Type} (le : A -> A -> bool).

Lemma insert_by_perm (x : A) (l : list A) :
  Permutation (Py.insert_by le x l) (x :: l).
Proof.
  induction l as [| y l IH]; simpl.
  - apply Permutation_refl.
  - destruct (le x y).
    + apply Permutation_refl.
    + eapply Permutation_trans; [apply perm_skip, IH | apply perm_swap].
Qed.

(** [sorted] only reorders. *)
Lemma sorted_perm (l : list A) : Permutation (Py.sorted le l) l.
Proof.
  unfold Py.sorted. induction l as [| x l IH]; simpl.
  - apply perm_nil.
  - eapply Permutation_trans; [apply insert_by_perm | apply perm_skip, IH].
Qed.

Lemma sorted_In (l : list A) (x : A) : In x (Py.sorted le l) <-> In x l.
Proof.
  split; apply Permutation_in;
    [apply sorted_perm | apply Permutation_sym, sorted_perm].
Qed.


End PyFacts.

(* ======================================================================= *)
(** * Facts about the flow reconstructor *)
(* ======================================================================= *)

Section FlowFacts.
Import match_flow.

Lemma emit_cases (st : list string * list string) (l : string) :
  emit_inv st ->
  (In l (fst st) /\ emit st l = st)
  \/ (~ In l (fst st) /\ emit st l = (fst st ++ [l], fst st ++ [l])).
Proof.
  intros [Hs Hn]. unfold emit. destruct (Py.mem l (snd st)) eqn:E.
  - left. apply mem_In in E. rewrite Hs in E. auto.
  - right. pose proof E as E'. apply mem_false in E'. rewrite Hs in E'.
    split; [assumption |]. unfold Py.set_add. rewrite E, Hs. reflexivity.
Qed.

Lemma emit_keeps_inv (st : list string * list string) (l : string) :
  emit_inv st -> emit_inv (emit st l).
Proof.
  intros H. destruct (emit_cases st l H) as [[_ ->] | [Hn ->]]; [assumption |].
  destruct H as [_ Hnd]. split; [reflexivity |]. simpl.
  apply NoDup_app; [assumption | repeat constructor; auto |].
  intros a Ha [<- | []]. contradiction.
Qed.

(** Emitting a list of labels extends [phases] by the new labels, each once. *)
Lemma emit_all (labels : list string) (st : list string * list string) :
  emit_inv st ->
  exists ext,
    fst (fold_left emit labels st) = fst st ++ ext
    /\ emit_inv (fold_left emit labels st)
    /\ (forall x, In x ext <-> In x labels /\ ~ In x (fst st)).
Proof.
  revert st. induction labels as [| l labels IH]; intros st H; simpl.
  - exists []. rewrite app_nil_r. split; [reflexivity | split; [exact H |]].
    intros x. simpl. tauto.
  - destruct (emit_cases st l H) as [[Hin E] | [Hn E]].
    + rewrite E. destruct (IH st H) as [ext [H1 [H2 H3]]].
      exists ext. split; [assumption | split; [assumption |]].
      intros x. rewrite H3. simpl. split; [tauto |].
      intros [[<- | Hx] Hnx]; tauto.
    + pose proof (emit_keeps_inv st l H) as H'. rewrite E in *.
      destruct (IH _ H') as [ext [H1 [H2 H3]]]. simpl in H1, H3.
      exists (l :: ext). split; [| split; [assumption |]].
      * rewrite H1, <- app_assoc. reflexivity.
      * intros x. simpl. rewrite H3, in_app_iff. simpl.
        destruct (string_dec l x) as [<- | Hne]; [tauto |].
        intuition congruence.
Qed.

Lemma emit_all_nil (labels : list string) :
  NoDup (fst (fold_left emit labels ([], [])))
  /\ forall x, In x (fst (fold_left emit labels ([], []))) <-> In x labels.
Proof.
  assert (H0 : emit_inv ([], [])) by (split; [reflexivity | constructor]).
  destruct (emit_all labels _ H0) as [ext [H1 [[_ H2] H3]]].
  split; [assumption |]. intros x. rewrite H1. simpl. rewrite H3. simpl. tauto.
Qed.

Lemma build_phases_fold (behaviors : list BehaviorDict) (time_slice : string) :
  _build_phases behaviors time_slice =
  fst (fold_left emit
         (map (fun b => phase_label (get_or "" (get_code b)) time_slice)
              (Py.sorted by_category behaviors))
         ([], [])).
Proof.
  unfold _build_phases. destruct behaviors as [| b bs]; [reflexivity |].
  now rewrite <- fold_left_map.
Qed.

Lemma build_phases_NoDup (behaviors : list BehaviorDict) (time_slice : string) :
  NoDup (_build_phases behaviors time_slice).
Proof. rewrite build_phases_fold. apply emit_all_nil. Qed.

Lemma build_phases_In (behaviors : list BehaviorDict) (time_slice l : string) :
  In l (_build_phases behaviors time_slice) <->
  exists b, In b behaviors /\ l = phase_label (get_or "" (get_code b)) time_slice.
Proof.
  rewrite build_phases_fold.
  rewrite (proj2 (emit_all_nil _)), in_map_iff.
  split; intros [b [H1 H2]]; exists b.
  - split; [now apply (sorted_In by_category) | now symmetry].
  - split; [now symmetry | now apply (sorted_In by_category)].
Qed.

Ltac by_code c :=
  repeat match goal with
         | |- context [String.eqb c ?k] =>
             destruct (String.eqb_spec c k); [subst c |]
         end.

Lemma phase_label_global (c : string) : In (phase_label c "global") GLOBAL_LABELS.
Proof.
  unfold phase_label, PHASE_LABELS, labels_get.
  by_code c; vm_compute; tauto.
Qed.

Lemma phase_label_last15 (c : string) :
  phase_label c "last_15_min" = final_label c.
Proof.
  unfold phase_label, final_label, PHASE_LABELS, labels_get.
  by_code c; reflexivity.
Qed.

Lemma final_label_cases (c : string) :
  In (final_label c) FINAL_LABELS
  /\ final_label c <> RUPTURE_LABEL
  /\ (final_label c = "Effondrement défensif final" -> c = "STB_01")
  /\ (final_label c = "Déclin physique final" -> c = "INT_02").
Proof.
  unfold final_label, PHASE_LABELS, labels_get.
  by_code c; vm_compute; repeat split; try tauto; try discriminate; congruence.
Qed.

Lemma labels_disjoint (l : string) : In l GLOBAL_LABELS -> In l FINAL_LABELS -> False.
Proof.
  intros Hg Hf.
  assert (H : forallb (fun g => negb (Py.mem g FINAL_LABELS)) GLOBAL_LABELS = true)
    by reflexivity.
  rewrite forallb_forall in H. specialize (H l Hg).
  apply mem_In in Hf. rewrite Hf in H. discriminate.
Qed.

End FlowFacts.

Section FlowLimits.
Import match_flow.

Lemma pad_single (x : string) :
  pad_loop MIN_PHASES [x] =
  if String.eqb DEFAULT_LAST15_LABEL x
  then [DEFAULT_GLOBAL_LABEL; x] else [x; DEFAULT_LAST15_LABEL].
Proof.
  unfold MIN_PHASES at 1. cbn [pad_loop length].
  change (Nat.ltb 1 MIN_PHASES) with true. cbv iota.
  unfold pad_once, Py.mem. cbn [existsb]. rewrite orb_false_r.
  destruct (String.eqb DEFAULT_LAST15_LABEL x); reflexivity.
Qed.
(** The padding loop stops by its own test: with the fuel it is given it
    reaches [MIN_PHASES] phases, and more fuel changes nothing. *)
Lemma pad_loop_done (fuel : nat) (l : list string) :
  MIN_PHASES <= length l -> pad_loop fuel l = l.
Proof.
  intros H. destruct fuel as [| fuel]; simpl; [reflexivity |].
  destruct (Nat.ltb_spec (length l) MIN_PHASES); [lia | reflexivity].
Qed.

Lemma pad_once_length (l : list string) : length (pad_once l) = S (length l).
Proof.
  unfold pad_once. destruct (negb (Py.mem DEFAULT_LAST15_LABEL l)); simpl.
  - rewrite length_app. simpl. lia.
  - reflexivity.
Qed.

Lemma pad_loop_fuel (fuel : nat) (l : list string) :
  MIN_PHASES - length l <= fuel ->
  MIN_PHASES <= length (pad_loop fuel l)
  /\ pad_loop fuel l = pad_loop (MIN_PHASES - length l) l.
Proof.
  revert l. induction fuel as [| fuel IH]; intros l H.
  - assert (E : MIN_PHASES - length l = 0) by lia. rewrite E. simpl. split; [lia | reflexivity].
  - destruct (Nat.ltb_spec (length l) MIN_PHASES) as [Hlt | Hge].
    + assert (E : MIN_PHASES - length l = S (MIN_PHASES - length (pad_once l)))
        by (rewrite pad_once_length; lia).
      rewrite E. cbn [pad_loop].
      apply Nat.ltb_lt in Hlt. rewrite Hlt.
      destruct (IH (pad_once l)) as [H1 H2]; [rewrite pad_once_length; lia |].
      split; [exact H1 | exact H2].
    + rewrite !pad_loop_done by lia. split; [lia | reflexivity].
Qed.

(** The five ways [_apply_limits] treats its argument. *)
Lemma apply_limits_cases (l : list string) :
  (l = [] /\ _apply_limits l = [DEFAULT_GLOBAL_LABEL; DEFAULT_LAST15_LABEL])
  \/ (exists x, l = [x] /\ x <> DEFAULT_LAST15_LABEL
                /\ _apply_limits l = [x; DEFAULT_LAST15_LABEL])
  \/ (l = [DEFAULT_LAST15_LABEL]
      /\ _apply_limits l = [DEFAULT_GLOBAL_LABEL; DEFAULT_LAST15_LABEL])
  \/ (2 <= length l <= 5 /\ _apply_limits l = l)
  \/ (5 < length l /\ _apply_limits l = firstn 5 l).
Proof.
  destruct l as [| x [| y r]].
  - left. split; reflexivity.
  - right. unfold _apply_limits. cbn [length].
    change (Nat.ltb 1 MIN_PHASES) with true. cbv iota.
    rewrite pad_single.
    destruct (String.eqb_spec DEFAULT_LAST15_LABEL x) as [<- | Hne].
    + right. left. split; reflexivity.
    + left. exists x. repeat split; congruence.
  - right. right. right. unfold _apply_limits.
    change (Nat.ltb (length (x :: y :: r)) MIN_PHASES) with false. cbv iota.
    unfold MAX_PHASES.
    destruct (Nat.ltb_spec 5 (length (x :: y :: r))) as [Hlt | Hge].
    + right. split; [assumption | reflexivity].
    + left. split; [simpl in *; lia | reflexivity].
Qed.

Lemma apply_limits_length (l : list string) : 2 <= length (_apply_limits l) <= 5.
Proof.
  destruct (apply_limits_cases l)
    as [[_ ->] | [[x [_ [_ ->]]] | [[_ ->] | [[H ->] | [H ->]]]]];
    try (simpl; lia); try assumption.
  rewrite length_firstn. lia.
Qed.

Lemma apply_limits_NoDup (l : list string) : NoDup l -> NoDup (_apply_limits l).
Proof.
  intros Hn.
  destruct (apply_limits_cases l)
    as [[_ ->] | [[x [_ [Hx ->]]] | [[_ ->] | [[H ->] | [H ->]]]]].
  - repeat constructor; simpl; intuition discriminate.
  - repeat constructor; simpl; intuition congruence.
  - repeat constructor; simpl; intuition discriminate.
  - assumption.
  - rewrite <- (firstn_skipn 5 l) in Hn. now apply NoDup_app_remove_r in Hn.
Qed.

Lemma enumerate_from_length (i : nat) (l : list string) :
  length (enumerate_from i l) = length l.
Proof.
  revert i. induction l as [| p l IH]; intros i; simpl; [reflexivity |].
  now rewrite IH.
Qed.

(** Phase numbering is by position: entry [k] carries number [k + 1]. *)
Lemma enumerate_from_nth (l : list string) (i k : nat) :
  nth_error (enumerate_from i l) k = option_map (numbered (i + k)) (nth_error l k).
Proof.
  revert i k. induction l as [| p l IH]; intros i [| k]; simpl; try reflexivity.
  - now rewrite Nat.add_0_r.
  - rewrite IH. now rewrite Nat.add_succ_r.
Qed.

Lemma enumerate_from_In (l : list string) (i : nat) (s : string) :
  In s (enumerate_from i l) -> exists n p, In p l /\ s = numbered n p.
Proof.
  revert i. induction l as [| p l IH]; intros i; simpl; [tauto |].
  intros [<- | H].
  - exists i, p. auto.
  - destruct (IH _ H) as [n [q [Hq ->]]]. exists n, q. auto.
Qed.

(** The labels of the two groups never meet. *)
Lemma build_global_labels (behaviors : list BehaviorDict) (l : string) :
  In l (_build_phases behaviors "global") -> In l GLOBAL_LABELS.
Proof.
  rewrite build_phases_In. intros [b [_ ->]]. apply phase_label_global.
Qed.

Lemma build_last15_labels (behaviors : list BehaviorDict) (l : string) :
  In l (_build_phases behaviors "last_15_min") -> In l FINAL_LABELS.
Proof.
  rewrite build_phases_In. intros [b [_ ->]].
  rewrite phase_label_last15. apply final_label_cases.
Qed.

Lemma emit_grows (st : list string * list string) (l x : string) :
  In x (snd st) -> In x (snd (emit st l)).
Proof.
  unfold emit. destruct (Py.mem l (snd st)); [auto |].
  simpl. intros H. apply set_add_In. now right.
Qed.

(** Once the rupture phase is in, the builder skips exactly the rupture
    codes. *)
Lemma rupture_loop (l : list BehaviorDict) (st : list string * list string) :
  In RUPTURE_LABEL (snd st) ->
  fold_left rupture_step l st =
  fold_left emit
    (map (fun b => final_label (get_or "" (get_code b))) (filter not_rupture l)) st.
Proof.
  revert st. induction l as [| b l IH]; intros st H; simpl; [reflexivity |].
  unfold rupture_step at 2, not_rupture at 1.
  apply mem_In in H. rewrite H, andb_true_r.
  destruct (Py.mem (get_or "" (get_code b)) RUPTURE_CODES); simpl.
  - apply IH. now apply mem_In.
  - apply IH. apply emit_grows. now apply mem_In.
Qed.

Lemma rupture_found (l : list BehaviorDict) (found0 : list string) (c : string) :
  In c (fold_left
          (fun found behavior =>
             let code := get_or "" (get_code behavior) in
             if Py.mem code RUPTURE_CODES then Py.set_add code found else found)
          l found0)
  <-> In c found0
      \/ (In c RUPTURE_CODES /\ exists b, In b l /\ get_or "" (get_code b) = c).
Proof.
  revert found0. induction l as [| b l IH]; intros found0; cbn [fold_left].
  - split; [auto | intros [H | [_ [b [[] _]]]]; exact H].
  - rewrite IH. cbv zeta.
    destruct (Py.mem (get_or "" (get_code b)) RUPTURE_CODES) eqn:E.
    + rewrite set_add_In. apply mem_In in E. split.
      * intros [[-> | H] | [H1 [b' [H2 H3]]]]; eauto 6 using in_eq, in_cons.
      * intros [H | [H1 [b' [[<- | H2] H3]]]]; subst; eauto 6.
    + apply mem_false in E. split.
      * intros [H | [H1 [b' [H2 H3]]]]; eauto 6 using in_eq, in_cons.
      * intros [H | [H1 [b' [[<- | H2] H3]]]]; subst; eauto 6. contradiction.
Qed.

(** With both rupture codes among the final behaviors, the final phases
    are the rupture phase, then the other behaviors' labels, each once. *)
Lemma rupture_phases (behaviors : list BehaviorDict) :
  (forall c, In c RUPTURE_CODES ->
             exists b, In b behaviors /\ get_or "" (get_code b) = c) ->
  exists others,
    _build_phases_with_rupture behaviors = RUPTURE_LABEL :: others
    /\ NoDup (RUPTURE_LABEL :: others)
    /\ forall l, In l others <->
                 exists b, In b behaviors /\ not_rupture b = true
                           /\ l = final_label (get_or "" (get_code b)).
Proof.
  intros Hboth. unfold _build_phases_with_rupture. cbv zeta.
  set (srt := Py.sorted by_category behaviors).
  set (found := fold_left _ srt []).
  assert (Heq : Py.set_eq found RUPTURE_CODES = true).
  { unfold Py.set_eq. apply andb_true_iff.
    split; apply issubset_incl; intros c Hc; subst found.
    - apply rupture_found in Hc. destruct Hc as [[] | [Hc _]]. exact Hc.
    - apply rupture_found. right. split; [exact Hc |].
      destruct (Hboth c Hc) as [b [Hb Hcb]]. exists b.
      split; [now apply (sorted_In by_category) | exact Hcb]. }
  rewrite Heq.
  change (fold_left _ srt ([RUPTURE_LABEL], [RUPTURE_LABEL]))
    with (fold_left rupture_step srt ([RUPTURE_LABEL], [RUPTURE_LABEL])).
  rewrite rupture_loop by (simpl; auto).
  assert (H0 : emit_inv ([RUPTURE_LABEL], [RUPTURE_LABEL])).
  { split; [reflexivity | repeat constructor; simpl; tauto]. }
  destruct (emit_all
              (map (fun b => final_label (get_or "" (get_code b)))
                   (filter not_rupture srt)) _ H0) as [ext [H1 [[_ H2] H3]]].
  exists ext. rewrite H1 in *. simpl. split; [reflexivity | split; [exact H2 |]].
  intros l. rewrite H3, in_map_iff. subst srt. simpl. split.
  - intros [[b [Hl Hb]] _]. apply filter_In in Hb. destruct Hb as [Hb Hn].
    apply (proj1 (sorted_In by_category _ _)) in Hb.
    exists b. split; [exact Hb | split; [exact Hn | now symmetry]].
  - intros [b [Hb [Hn ->]]]. split.
    + exists b. split; [reflexivity |]. apply filter_In.
      split; [now apply (sorted_In by_category) | exact Hn].
    + intros [H | []]. symmetry in H. revert H. apply final_label_cases.
Qed.

End FlowLimits.

Section FlowTheorems.
Import match_flow.

Lemma apply_limits_incl (l : list string) (x : string) :
  In x (_apply_limits l) ->
  In x l \/ x = DEFAULT_GLOBAL_LABEL \/ x = DEFAULT_LAST15_LABEL.
Proof.
  destruct (apply_limits_cases l)
    as [[_ ->] | [[y [-> [_ ->]]] | [[_ ->] | [[_ ->] | [_ ->]]]]];
    simpl; try tauto; try (intuition congruence).
  intros H. left. rewrite <- (firstn_skipn 5 l). apply in_or_app. now left.
Qed.

Lemma has_rupture_both (behaviors : list BehaviorDict) :
  has_rupture behaviors = true ->
  forall c, In c RUPTURE_CODES ->
            exists b, In b (last15_behaviors behaviors) /\ get_or "" (get_code b) = c.
Proof.
  unfold has_rupture. rewrite issubset_incl. intros H c Hc.
  specialize (H c Hc). unfold last15_codes in H.
  apply set_of_In, in_map_iff in H. destruct H as [b [H1 H2]]. eauto.
Qed.

Lemma final_phases_spec (behaviors : list BehaviorDict) :
  NoDup (final_phases behaviors)
  /\ forall l, In l (final_phases behaviors) -> In l FINAL_LABELS.
Proof.
  unfold final_phases. destruct (has_rupture behaviors) eqn:E.
  - destruct (rupture_phases _ (has_rupture_both _ E)) as [others [-> [Hn Hin]]].
    split; [exact Hn |]. intros l [<- | Hl].
    + vm_compute. tauto.
    + apply Hin in Hl. destruct Hl as [b [_ [_ ->]]]. apply final_label_cases.
  - split; [apply build_phases_NoDup | apply build_last15_labels].
Qed.

(** Before the limits are applied, all labels are pairwise distinct. *)
Lemma derived_NoDup (behaviors : list BehaviorDict) :
  NoDup (derived_phases behaviors).
Proof.
  unfold derived_phases. apply NoDup_app.
  - apply build_phases_NoDup.
  - apply final_phases_spec.
  - intros l Hg Hf. apply build_global_labels in Hg.
    apply final_phases_spec in Hf. exact (labels_disjoint l Hg Hf).
Qed.

Lemma active_last15_code (c : string) (behaviors : list BehaviorDict) :
  Py.startswith c "AMBIGU" = false ->
  active_last15 c behaviors ->
  exists b, In b (last15_behaviors behaviors) /\ get_or "" (get_code b) = c.
Proof.
  intros Hc [b [Hb [H1 [H2 H3]]]]. exists b. split.
  - unfold last15_behaviors. apply filter_In. split; [exact Hb |].
    unfold kept, is_last15. rewrite H1, H2, H3. simpl get_or. rewrite Hc. reflexivity.
  - now rewrite H1.
Qed.

Lemma rupture_detected (behaviors : list BehaviorDict) :
  active_last15 "STB_01" behaviors -> active_last15 "INT_02" behaviors ->
  has_rupture behaviors = true.
Proof.
  intros H1 H2. unfold has_rupture. apply issubset_incl. intros c Hc.
  unfold last15_codes. apply set_of_In, in_map_iff.
  destruct Hc as [<- | [<- | []]].
  - destruct (active_last15_code "STB_01" behaviors eq_refl H1) as [b [Hb Hc]]. eauto.
  - destruct (active_last15_code "INT_02" behaviors eq_refl H2) as [b [Hb Hc]]. eauto.
Qed.

Lemma ends_with_self (suffix a : string) : ends_with suffix (a ++ suffix) = true.
Proof.
  induction a as [| c a IH]; simpl.
  - destruct suffix; simpl; rewrite ?String.eqb_refl, ?Ascii.eqb_refl; reflexivity.
  - rewrite IH. apply orb_true_r.
Qed.

Lemma ends_with_app (suffix a s : string) :
  ends_with suffix s = true -> ends_with suffix (a ++ s) = true.
Proof.
  intros H. induction a as [| c a IH]; simpl; [exact H |].
  rewrite IH. apply orb_true_r.
Qed.

Lemma numbered_ends_with (n : nat) (p : string) : ends_with p (numbered n p) = true.
Proof.
  unfold numbered. apply ends_with_app, ends_with_app, ends_with_self.
Qed.

End FlowTheorems.

(* ======================================================================= *)
(** * Properties of [MatchFlowReconstructor.reconstruct] *)
(* ======================================================================= *)

Section FlowClaims.
Import match_flow.

(** C8.  Whatever the behavior list (empty, unknown codes, missing keys,
    statuses other than ACTIVE), [reconstruct] returns between 2 and 5
    phases.  With no phase derived the two defaults are returned; with
    one phase derived, the default final label is appended when that
    phase is not it, and the default global label is put in front when it
    is; 2 to 5 derived phases are kept; more than 5 are cut to the first
    5.  The result is that list, numbered from 1. *)
Theorem reconstruct_phase_count_bounds (behaviors : list BehaviorDict) :
  let derived := derived_phases behaviors in
  let out := limited_phases behaviors in
  reconstruct behaviors = enumerate_from 0 out
  /\ 2 <= length (reconstruct behaviors) <= 5
  /\ (derived = [] -> out = [DEFAULT_GLOBAL_LABEL; DEFAULT_LAST15_LABEL])
  /\ (forall x, derived = [x] -> x <> DEFAULT_LAST15_LABEL ->
                out = [x; DEFAULT_LAST15_LABEL])
  /\ (derived = [DEFAULT_LAST15_LABEL] ->
      out = [DEFAULT_GLOBAL_LABEL; DEFAULT_LAST15_LABEL])
  /\ (2 <= length derived <= 5 -> out = derived)
  /\ (5 < length derived -> out = firstn 5 derived)
  /\ reconstruct [] = ["Phase 1 : Phase de stabilisation"; "Phase 2 : Phase finale"].
Proof.
  intros derived out. subst out. unfold limited_phases. fold derived.
  split; [reflexivity |].
  split; [unfold reconstruct, limited_phases; rewrite enumerate_from_length;
          apply apply_limits_length |].
  destruct (apply_limits_cases derived)
    as [[E ->] | [[y [E [Hy ->]]] | [[E ->] | [[Hl ->] | [Hl ->]]]]].
  - rewrite E. repeat split; try reflexivity; try discriminate; simpl; lia.
  - rewrite E. repeat split; try reflexivity; try discriminate; try (simpl; lia).
    + intros x Hx _. now inversion Hx.
    + intros Hx. inversion Hx. contradiction.
  - rewrite E. repeat split; try reflexivity; try discriminate; try (simpl; lia).
    intros x Hx Hne. inversion Hx. congruence.
  - repeat split; try reflexivity; try lia.
    + intros E. rewrite E in Hl. simpl in Hl. lia.
    + intros x E. rewrite E in Hl. simpl in Hl. lia.
    + intros E. rewrite E in Hl. simpl in Hl. lia.
  - repeat split; try reflexivity; try lia.
    + intros E. rewrite E in Hl. simpl in Hl. lia.
    + intros x E. rewrite E in Hl. simpl in Hl. lia.
    + intros E. rewrite E in Hl. simpl in Hl. lia.
Qed.

(** C9.  The labels of the returned phases are pairwise distinct over the
    whole sequence (GLOBAL-derived, LAST_15_MIN-derived, rupture and
    padding labels together): entry [i] of the result is
    ["Phase i+1 : "] followed by the [i]-th label of a duplicate-free
    list. *)
Theorem reconstruct_labels_pairwise_distinct (behaviors : list BehaviorDict) :
  NoDup (limited_phases behaviors)
  /\ forall i s,
       nth_error (reconstruct behaviors) i = Some s <->
       exists p, nth_error (limited_phases behaviors) i = Some p
                 /\ s = numbered i p.
Proof.
  split.
  - apply apply_limits_NoDup, derived_NoDup.
  - intros i s. unfold reconstruct. rewrite enumerate_from_nth. simpl.
    destruct (nth_error (limited_phases behaviors) i) as [p |]; simpl.
    + split.
      * intros H. exists p. split; congruence.
      * intros [q [Hq ->]]. congruence.
    + split; [discriminate | intros [q [Hq _]]; discriminate].
Qed.

(** C7, as the code has it.  When STB_01 and INT_02 are both ACTIVE in the
    last 15 minutes, the final phases are "Rupture structurelle" once,
    followed by the labels of the other last-15-minute behaviors, each
    once; the individual labels of STB_01 and INT_02 never reach the
    result.  The limits still apply: the rupture phase is returned at its
    place, right after the GLOBAL-derived phases, when fewer than 5 of
    those precede it. *)
Theorem rupture_phase_subject_to_limits (behaviors : list BehaviorDict) :
  active_last15 "STB_01" behaviors ->
  active_last15 "INT_02" behaviors ->
  exists others,
    final_phases behaviors = RUPTURE_LABEL :: others
    /\ NoDup (RUPTURE_LABEL :: others)
    /\ (forall l, In l others <->
                  exists b, In b (last15_behaviors behaviors)
                            /\ not_rupture b = true
                            /\ l = final_label (get_or "" (get_code b)))
    /\ limited_phases behaviors =
       _apply_limits (global_phases behaviors ++ RUPTURE_LABEL :: others)
    /\ ~ In "Effondrement défensif final" (limited_phases behaviors)
    /\ ~ In "Déclin physique final" (limited_phases behaviors)
    /\ (length (global_phases behaviors) < 5 ->
        nth_error (reconstruct behaviors) (length (global_phases behaviors))
        = Some (numbered (length (global_phases behaviors)) RUPTURE_LABEL)).
Proof.
  intros H1 H2. pose proof (rupture_detected behaviors H1 H2) as Hr.
  destruct (rupture_phases _ (has_rupture_both _ Hr)) as [others [Hf [Hn Hin]]].
  assert (Hfin : final_phases behaviors = RUPTURE_LABEL :: others).
  { unfold final_phases. rewrite Hr. exact Hf. }
  assert (Hlim : limited_phases behaviors =
                 _apply_limits (global_phases behaviors ++ RUPTURE_LABEL :: others)).
  { unfold limited_phases, derived_phases. now rewrite Hfin. }
  assert (Hnot : forall l c,
             ~ In l GLOBAL_LABELS -> l <> RUPTURE_LABEL ->
             l <> DEFAULT_GLOBAL_LABEL -> l <> DEFAULT_LAST15_LABEL ->
             In c RUPTURE_CODES ->
             (forall c', final_label c' = l -> c' = c) ->
             ~ In l (limited_phases behaviors)).
  { intros l c Hg Hr' Hdg Hdl Hc Hinj Hl. rewrite Hlim in Hl.
    apply apply_limits_incl in Hl. destruct Hl as [Hl | [Hl | Hl]]; try contradiction.
    apply in_app_or in Hl. destruct Hl as [Hl | [Hl | Hl]].
    - apply Hg. eapply build_global_labels, Hl.
    - congruence.
    - apply Hin in Hl. destruct Hl as [b [_ [Hb Hl]]].
      symmetry in Hl. apply Hinj in Hl. unfold not_rupture in Hb.
      rewrite Hl in Hb. apply mem_In in Hc. rewrite Hc in Hb. discriminate. }
  exists others. repeat split; try assumption; try apply Hin.
  - apply (Hnot _ "STB_01"); try discriminate; try (vm_compute; tauto).
    + vm_compute. intuition discriminate.
    + intros c'. apply final_label_cases.
  - apply (Hnot _ "INT_02"); try discriminate; try (vm_compute; tauto).
    + vm_compute. intuition discriminate.
    + intros c'. apply final_label_cases.
  - intros Hlen. unfold reconstruct. rewrite enumerate_from_nth, Hlim. simpl.
    set (g := global_phases behaviors) in *.
    assert (Hnth : nth_error (g ++ RUPTURE_LABEL :: others) (length g)
                   = Some RUPTURE_LABEL).
    { rewrite nth_error_app2, Nat.sub_diag by lia. reflexivity. }
    destruct (apply_limits_cases (g ++ RUPTURE_LABEL :: others))
      as [[E _] | [[y [E [Hy ->]]] | [[E _] | [[Hl ->] | [Hl ->]]]]].
    + destruct g; discriminate.
    + destruct g as [| a [| ? ?]]; try discriminate. now inversion E.
    + destruct g as [| a [| ? ?]]; discriminate.
    + now rewrite Hnth.
    + rewrite nth_error_firstn, Hnth.
      destruct (Nat.ltb_spec (length g) 5); [reflexivity | lia].
Qed.

Lemma rupture_phase_witness :
  exists others,
    final_phases rupture_match = RUPTURE_LABEL :: others
    /\ NoDup (RUPTURE_LABEL :: others)
    /\ (forall l, In l others <->
                  exists b, In b (last15_behaviors rupture_match)
                            /\ not_rupture b = true
                            /\ l = final_label (get_or "" (get_code b)))
    /\ limited_phases rupture_match =
       _apply_limits (global_phases rupture_match ++ RUPTURE_LABEL :: others)
    /\ ~ In "Effondrement défensif final" (limited_phases rupture_match)
    /\ ~ In "Déclin physique final" (limited_phases rupture_match)
    /\ (length (global_phases rupture_match) < 5 ->
        nth_error (reconstruct rupture_match) (length (global_phases rupture_match))
        = Some (numbered (length (global_phases rupture_match)) RUPTURE_LABEL)).
Proof.
  apply (rupture_phase_subject_to_limits rupture_match).
  - exists (active_dict "STB_01" "last_15_min" "stability").
    simpl. repeat split; auto.
  - exists (active_dict "INT_02" "last_15_min" "intensity").
    simpl. repeat split; auto.
Defined.

(** C7 as stated fails: with five GLOBAL-derived phases in front, the cut
    to 5 phases removes the rupture phase. *)
Lemma rupture_phase_truncated_away :
  active_last15 "STB_01" crowded_match
  /\ active_last15 "INT_02" crowded_match
  /\ reconstruct crowded_match =
     [ "Phase 1 : Fragilité structurelle"; "Phase 2 : Contrôle tactique";
       "Phase 3 : Intensité active"; "Phase 4 : Fatigue précoce";
       "Phase 5 : Tension émotionnelle" ]
  /\ ~ exists n, In (numbered n RUPTURE_LABEL) (reconstruct crowded_match).
Proof.
  split; [| split; [| split]].
  - exists (active_dict "STB_01" "last_15_min" "stability").
    simpl. repeat split; auto 10.
  - exists (active_dict "INT_02" "last_15_min" "intensity").
    simpl. repeat split; auto 10.
  - vm_compute. reflexivity.
  - intros [n Hn].
    assert (H : forallb (fun s => negb (ends_with RUPTURE_LABEL s))
                        (reconstruct crowded_match) = true) by (vm_compute; reflexivity).
    rewrite forallb_forall in H. specialize (H _ Hn).
    rewrite numbered_ends_with in H. discriminate.
Qed.

End FlowClaims.

(* ======================================================================= *)
(** * Properties of [PatternEngine.compute_patterns] *)
(* ======================================================================= *)

Section StringOrder.

Lemma ascii_compare_refl (a : ascii) : Ascii.compare a a = Eq.
Proof. unfold Ascii.compare. apply N.compare_refl. Qed.

Lemma ascii_compare_lt_trans (a b c : ascii) :
  Ascii.compare a b = Lt -> Ascii.compare b c = Lt -> Ascii.compare a c = Lt.
Proof.
  unfold Ascii.compare. rewrite !N.compare_lt_iff. apply N.lt_trans.
Qed.

Lemma string_leb_trans (s1 s2 s3 : string) :
  String.leb s1 s2 = true -> String.leb s2 s3 = true -> String.leb s1 s3 = true.
Proof.
  unfold String.leb. revert s2 s3.
  induction s1 as [| c1 s1 IH]; intros [| c2 s2] [| c3 s3]; simpl;
    try reflexivity; try discriminate.
  destruct (Ascii.compare c1 c2) eqn:E12; try discriminate;
    destruct (Ascii.compare c2 c3) eqn:E23; try discriminate.
  - apply Ascii.compare_eq_iff in E12, E23. subst.
    rewrite ascii_compare_refl. apply IH.
  - apply Ascii.compare_eq_iff in E12. subst. now rewrite E23.
  - apply Ascii.compare_eq_iff in E23. subst. now rewrite E12.
  - now rewrite (ascii_compare_lt_trans _ _ _ E12 E23).
Qed.

Lemma insert_sorted (x : string) (l : list string) :
  StronglySorted str_le l -> StronglySorted str_le (Py.insert_by String.leb x l).
Proof.
  induction 1 as [| y l Hs IH Hall]; simpl.
  - repeat constructor.
  - destruct (String.leb x y) eqn:E.
    + constructor; [now constructor |]. constructor; [exact E |].
      eapply Forall_impl; [| exact Hall]. intros z Hz.
      exact (string_leb_trans _ _ _ E Hz).
    + constructor; [exact IH |].
      assert (Hyx : str_le y x).
      { destruct (String.leb_total x y) as [H | H]; [congruence | exact H]. }
      rewrite Forall_forall in *. intros z Hz.
      apply (Permutation_in _ (insert_by_perm String.leb x l)) in Hz.
      destruct Hz as [<- | Hz]; [exact Hyx | now apply Hall].
Qed.

Lemma sorted_str_sorted (l : list string) : StronglySorted str_le (Py.sorted_str l).
Proof.
  unfold Py.sorted_str, Py.sorted. induction l as [| x l IH]; simpl.
  - constructor.
  - apply insert_sorted, IH.
Qed.

Lemma sorted_unique (l1 l2 : list string) :
  StronglySorted str_le l1 -> StronglySorted str_le l2 ->
  Permutation l1 l2 -> l1 = l2.
Proof.
  intros H1. revert l2. induction H1 as [| a l1 Hs1 IH Ha]; intros l2 H2 Hp.
  - apply Permutation_nil in Hp. now subst.
  - destruct H2 as [| b l2 Hs2 Hb].
    + apply Permutation_sym, Permutation_nil in Hp. discriminate.
    + assert (a = b).
      { rewrite Forall_forall in Ha, Hb.
        assert (Hba : In b (a :: l1))
          by (apply (Permutation_in _ (Permutation_sym Hp)); now left).
        assert (Hab : In a (b :: l2)) by (apply (Permutation_in _ Hp); now left).
        destruct Hba as [-> | Hba]; [reflexivity |].
        destruct Hab as [-> | Hab]; [reflexivity |].
        apply String.leb_antisym; [apply Ha, Hba | apply Hb, Hab]. }
      subst b. f_equal. apply IH; [exact Hs2 |].
      exact (Permutation_cons_inv Hp).
Qed.

(** [sorted(list(s))] does not depend on the order in which the set [s]
    is listed. *)
Lemma sorted_str_of_perm (l1 l2 : list string) :
  Permutation l1 l2 -> Py.sorted_str l1 = Py.sorted_str l2.
Proof.
  intros Hp. apply sorted_unique; try apply sorted_str_sorted.
  eapply Permutation_trans; [apply sorted_perm |].
  eapply Permutation_trans; [exact Hp |]. apply Permutation_sym, sorted_perm.
Qed.

End StringOrder.

Section PatternClaims.
Import pattern_engine.

Lemma make_pattern_listing (listing1 listing2 : list string -> list string)
      (rule : Rule) (category : string) :
  (forall s, Permutation (listing1 s) s) ->
  (forall s, Permutation (listing2 s) s) ->
  make_pattern listing1 rule category = make_pattern listing2 rule category.
Proof.
  intros H1 H2. unfold make_pattern. f_equal. apply sorted_str_of_perm.
  eapply Permutation_trans; [apply H1 | apply Permutation_sym, H2].
Qed.

Lemma step_rule_listing (listing1 listing2 : list string -> list string)
      (active_codes : list string) (st : State) (rule : Rule) :
  (forall s, Permutation (listing1 s) s) ->
  (forall s, Permutation (listing2 s) s) ->
  step_rule listing1 active_codes st rule = step_rule listing2 active_codes st rule.
Proof.
  intros H1 H2. unfold step_rule.
  now rewrite (make_pattern_listing listing1 listing2 rule "composite" H1 H2).
Qed.

Lemma step_rule_v2_listing (listing1 listing2 : list string -> list string)
      (all_codes : list string) (st : State) (rule : Rule) :
  (forall s, Permutation (listing1 s) s) ->
  (forall s, Permutation (listing2 s) s) ->
  step_rule_v2 listing1 all_codes st rule = step_rule_v2 listing2 all_codes st rule.
Proof.
  intros H1 H2. unfold step_rule_v2.
  now rewrite (make_pattern_listing listing1 listing2 rule "composite_visual" H1 H2).
Qed.

Lemma fold_left_ext_eq {S X : Type} (f g : S -> X -> S) (l : list X) (s0 : S) :
  (forall s x, f s x = g s x) -> fold_left f l s0 = fold_left g l s0.
Proof.
  intros H. revert s0. induction l as [| x l IH]; intros s0; simpl; [reflexivity |].
  now rewrite H, IH.
Qed.

(** The pattern list does not depend on the iteration order of the rule
    frozensets. *)
Lemma compute_patterns_listing (self : PatternEngine)
      (listing1 listing2 : list string -> list string)
      (behaviors : list BehaviorDict) (visual_signals : option (list string)) :
  (forall s, Permutation (listing1 s) s) ->
  (forall s, Permutation (listing2 s) s) ->
  compute_patterns self listing1 behaviors visual_signals
  = compute_patterns self listing2 behaviors visual_signals.
Proof.
  intros H1 H2. unfold compute_patterns.
  destruct (Nat.ltb _ 2); [reflexivity |].
  rewrite (fold_left_ext_eq (step_rule listing1 _) (step_rule listing2 _))
    by (intros; now apply step_rule_listing).
  destruct (_enable_visual self && truthy visual_signals); [| reflexivity].
  now rewrite (fold_left_ext_eq (step_rule_v2 listing1 _) (step_rule_v2 listing2 _))
    by (intros; now apply step_rule_v2_listing).
Qed.

(** C2, evaluated where the code departs from it.  With STB_01, INT_01
    and PSY_01 active, no 3-source rule matches; PTN_01 and PTN_08 are
    accepted and mark their codes as used, and the 2-source rule PTN_11
    (STB_01 with INT_01), whose two codes are both present, is left out
    although no 3-source pattern claimed them. *)
Theorem double_suppressed_by_doubles (listing : list string -> list string) :
  let out := compute_patterns create_pattern_engine listing three_doubles_match None in
  In (["STB_01"; "INT_01"], ("PTN_11", "Chaos offensif")) (_rules create_pattern_engine)
  /\ Py.issubset ["STB_01"; "INT_01"] (_extract_active_codes three_doubles_match) = true
  /\ map pattern_code out = ["PTN_01"; "PTN_08"]
  /\ Forall (fun c => is_triple_pattern create_pattern_engine c = false)
            (map pattern_code out)
  /\ ~ In "PTN_11" (map pattern_code out).
Proof.
  intros out.
  assert (E : map pattern_code out = ["PTN_01"; "PTN_08"]) by (vm_compute; reflexivity).
  rewrite E. split; [| split; [| split; [| split]]].
  - vm_compute. tauto.
  - vm_compute. reflexivity.
  - reflexivity.
  - repeat constructor.
  - simpl. intuition discriminate.
Qed.

End PatternClaims.

(* ======================================================================= *)
(** * Facts about grouping *)
(* ======================================================================= *)

Section Grouping.
Context {A : Type} (key : A -> string).

Lemma group_insert_keys_old (k : string) (b : A) (g : list (string * list A)) :
  In k (map fst g) -> map fst (behavior_engine.group_insert k b g) = map fst g.
Proof.
  induction g as [| [k' bs] g IH]; simpl; [tauto |].
  destruct (String.eqb_spec k k') as [-> | Hne]; [reflexivity |].
  intros [H | H]; [congruence |]. simpl. now rewrite IH.
Qed.

Lemma group_insert_keys_new (k : string) (b : A) (g : list (string * list A)) :
  ~ In k (map fst g) ->
  behavior_engine.group_insert k b g = g ++ [(k, [b])].
Proof.
  induction g as [| [k' bs] g IH]; simpl; [reflexivity |].
  intros H. destruct (String.eqb_spec k k') as [-> | Hne]; [tauto |].
  rewrite IH; tauto.
Qed.

Lemma group_insert_In (k : string) (b : A) (g : list (string * list A))
      (k' : string) (bs' : list A) :
  NoDup (map fst g) ->
  In (k', bs') (behavior_engine.group_insert k b g) ->
  (k' <> k /\ In (k', bs') g)
  \/ (k' = k /\ exists bs0, In (k, bs0) g /\ bs' = bs0 ++ [b])
  \/ (k' = k /\ ~ In k (map fst g) /\ bs' = [b]).
Proof.
  induction g as [| [k0 bs0] g IH]; simpl; intros Hn H.
  - destruct H as [H | []]. inversion H; subst. right. right. tauto.
  - inversion Hn as [| ? ? Hk0 Hn']; subst.
    destruct (String.eqb_spec k k0) as [-> | Hne].
    + destruct H as [H | H].
      * inversion H; subst. right. left. split; [reflexivity |].
        exists bs0. auto.
      * left. split; [| now right]. intros ->. apply Hk0.
        change k0 with (fst (k0, bs')). now apply in_map.
    + destruct H as [H | H].
      * inversion H; subst. left. split; [congruence | now left].
      * destruct (IH Hn' H) as [[H1 H2] | [[H1 [bs1 [H2 H3]]] | [H1 [H2 H3]]]].
        -- left. auto.
        -- right. left. split; [exact H1 |]. exists bs1. auto.
        -- right. right. split; [exact H1 |]. split; [| exact H3].
           intros [H4 | H4]; [congruence | contradiction].
Qed.

Lemma group_insert_perm (k : string) (b : A) (g : list (string * list A)) :
  Permutation (flat_map snd (behavior_engine.group_insert k b g))
              (flat_map snd g ++ [b]).
Proof.
  induction g as [| [k' bs] g IH]; simpl; [apply Permutation_refl |].
  destruct (String.eqb k k'); simpl.
  - rewrite <- !app_assoc. apply Permutation_app_head.
    apply Permutation_app_comm.
  - rewrite <- app_assoc. apply Permutation_app_head, IH.
Qed.

Lemma filter_same_key_snoc (k : string) (p : list A) (b : A) :
  filter (same_key key k) (p ++ [b]) =
  filter (same_key key k) p ++ (if String.eqb (key b) k then [b] else []).
Proof.
  rewrite filter_app. simpl. unfold same_key at 2.
  destruct (String.eqb (key b) k); reflexivity.
Qed.

Lemma grouped_step (p : list A) (g : list (string * list A)) (b : A) :
  grouped key p g ->
  grouped key (p ++ [b]) (behavior_engine.group_insert (key b) b g).
Proof.
  intros [Hk Hf Hc Hp].
  assert (Hkeys : In (key b) (map fst (behavior_engine.group_insert (key b) b g))
                  /\ incl (map fst g) (map fst (behavior_engine.group_insert (key b) b g))
                  /\ NoDup (map fst (behavior_engine.group_insert (key b) b g))).
  { destruct (in_dec string_dec (key b) (map fst g)) as [Hin | Hnin].
    - rewrite group_insert_keys_old by exact Hin.
      repeat split; [exact Hin | apply incl_refl | exact Hk].
    - rewrite group_insert_keys_new by exact Hnin. rewrite map_app. simpl.
      repeat split.
      + apply in_or_app. right. now left.
      + apply incl_appl, incl_refl.
      + apply NoDup_app; [exact Hk | repeat constructor; auto |].
        intros a Ha [<- | []]. contradiction. }
  destruct Hkeys as [Hk1 [Hk2 Hk3]].
  constructor.
  - exact Hk3.
  - intros k bs Hin. rewrite filter_same_key_snoc.
    destruct (group_insert_In _ _ _ _ _ Hk Hin)
      as [[H1 H2] | [[H1 [bs0 [H2 H3]]] | [H1 [H2 H3]]]].
    + destruct (Hf _ _ H2) as [E Hne].
      destruct (String.eqb_spec (key b) k); [congruence |].
      rewrite app_nil_r. auto.
    + subst k bs. destruct (Hf _ _ H2) as [E Hne].
      rewrite String.eqb_refl, <- E. split; [reflexivity |].
      destruct bs0; discriminate.
    + subst k bs. rewrite String.eqb_refl.
      assert (E : filter (same_key key (key b)) p = []).
      { destruct (filter (same_key key (key b)) p) as [| x r] eqn:Ef; [reflexivity |].
        assert (Hx : In x (filter (same_key key (key b)) p))
          by (rewrite Ef; now left).
        apply filter_In in Hx. destruct Hx as [Hx Hkx].
        unfold same_key in Hkx. apply String.eqb_eq in Hkx.
        exfalso. apply H2. rewrite <- Hkx. now apply Hc. }
      rewrite E. split; [reflexivity | discriminate].
  - intros x Hx. apply in_app_or in Hx. destruct Hx as [Hx | [<- | []]].
    + apply Hk2, Hc, Hx.
    + exact Hk1.
  - eapply Permutation_trans; [apply group_insert_perm |].
    apply Permutation_app_tail, Hp.
Qed.

Lemma grouped_fold (l p : list A) (g : list (string * list A)) :
  grouped key p g ->
  grouped key (p ++ l)
          (fold_left (fun groups b => behavior_engine.group_insert (key b) b groups) l g).
Proof.
  revert p g. induction l as [| b l IH]; intros p g H; simpl.
  - now rewrite app_nil_r.
  - replace (p ++ b :: l) with ((p ++ [b]) ++ l) by (now rewrite <- app_assoc).
    apply IH, grouped_step, H.
Qed.

(** [group_by] files every item under its key. *)
Lemma group_by_grouped (l : list A) : grouped key l (behavior_engine.group_by key l).
Proof.
  unfold behavior_engine.group_by. apply (grouped_fold l [] []).
  constructor; simpl; try tauto; constructor.
Qed.

Lemma group_by_In (l : list A) (b : A) :
  In b l ->
  In (key b, filter (same_key key (key b)) l) (behavior_engine.group_by key l).
Proof.
  intros Hb. destruct (group_by_grouped l) as [_ Hf Hc _].
  specialize (Hc b Hb). apply in_map_iff in Hc. destruct Hc as [[k bs] [E Hin]].
  simpl in E. subst k. destruct (Hf _ _ Hin) as [-> _]. exact Hin.
Qed.

(** Each item of a group carries the group's key and comes from the list. *)
Lemma group_member (l : list A) (k : string) (bs : list A) (b : A) :
  In (k, bs) (behavior_engine.group_by key l) -> In b bs -> In b l /\ key b = k.
Proof.
  intros Hin Hb. destruct (group_by_grouped l) as [_ Hf _ _].
  destruct (Hf _ _ Hin) as [-> _]. apply filter_In in Hb.
  destruct Hb as [Hb Hk]. split; [exact Hb | now apply String.eqb_eq].
Qed.

End Grouping.

(* ======================================================================= *)
(** * Facts about the stages of the behavior engine *)
(* ======================================================================= *)

Lemma NoDup_app_inv {T : Type} (l1 l2 : list T) :
  NoDup (l1 ++ l2) -> NoDup l1 /\ NoDup l2 /\ forall x, In x l1 -> ~ In x l2.
Proof.
  intros H. split; [eapply NoDup_app_remove_r, H |].
  split; [eapply NoDup_app_remove_l, H |].
  induction l1 as [| a l1 IH]; simpl in *; [tauto |].
  inversion H as [| ? ? Ha Hn]; subst. intros x [<- | Hx].
  - intros Hx. apply Ha, in_or_app. now right.
  - now apply IH.
Qed.

Section ListFacts.
Context {A B : Type}.

Lemma NoDup_map_filter (h : A -> B) (q : A -> bool) (l : list A) :
  NoDup (map h l) -> NoDup (map h (filter q l)).
Proof.
  induction l as [| a l IH]; simpl; intros H; [constructor |].
  inversion H as [| ? ? Ha Hn]; subst.
  destruct (q a); simpl; [| now apply IH].
  constructor; [| now apply IH].
  intros Hin. apply Ha. apply in_map_iff in Hin. destruct Hin as [x [E Hx]].
  apply filter_In in Hx. apply in_map_iff. exists x. tauto.
Qed.

(** Keeping part of each group keeps the items apart. *)
Lemma flat_map_filter_NoDup (h : A -> B) (g : list (string * list A))
      (f : string * list A -> list A) :
  NoDup (map h (flat_map snd g)) ->
  (forall x, In x g -> exists q, f x = filter q (snd x)) ->
  NoDup (map h (flat_map f g)).
Proof.
  induction g as [| x g IH]; simpl; intros Hn Hf; [constructor |].
  rewrite map_app in *. apply NoDup_app_inv in Hn. destruct Hn as [H1 [H2 H3]].
  destruct (Hf x (or_introl eq_refl)) as [q Hq]. rewrite Hq.
  apply NoDup_app.
  - now apply NoDup_map_filter.
  - apply IH; [exact H2 | intros y Hy; apply Hf; now right].
  - intros b Hb Hb'. apply (H3 b).
    + apply in_map_iff in Hb. destruct Hb as [a [E Ha]].
      apply filter_In in Ha. apply in_map_iff. exists a. tauto.
    + apply in_map_iff in Hb'. destruct Hb' as [a [E Ha]].
      apply in_flat_map in Ha. destruct Ha as [y [Hy Ha]].
      destruct (Hf y (or_intror Hy)) as [q' Hq']. rewrite Hq' in Ha.
      apply filter_In in Ha. apply in_map_iff. exists a.
      split; [exact E |]. apply in_flat_map. exists y. tauto.
Qed.

Lemma two_members (l : list A) (a b : A) :
  In a l -> In b l -> a <> b -> 2 <= length l.
Proof.
  destruct l as [| x [| y r]]; simpl; try tauto; try lia.
  intros [<- | []] [<- | []]. congruence.
Qed.

Lemma assoc_unique (l : list (string * B)) (k : string) (v v' : B) :
  NoDup (map fst l) -> In (k, v) l -> In (k, v') l -> v = v'.
Proof.
  induction l as [| [k0 v0] l IH]; simpl; [tauto |].
  intros Hn H1 H2. inversion Hn as [| ? ? Hk Hn']; subst.
  assert (Hfst : forall w, In (k0, w) l -> In k0 (map fst l)).
  { intros w Hw. change k0 with (fst (k0, w)). now apply in_map. }
  destruct H1 as [H1 | H1], H2 as [H2 | H2].
  - congruence.
  - inversion H1; subst. exfalso. eauto.
  - inversion H2; subst. exfalso. eauto.
  - now apply IH.
Qed.

End ListFacts.

Section EngineFacts.
Import definitions behavior_engine.

Lemma raw_behaviors_In (self : BehaviorEngine) (time_slices : TimeSlices)
      (definitions : list (string * BehaviorSpec)) (b : DetectedBehavior) :
  In b (raw_behaviors self time_slices definitions) <->
  exists entry, In entry definitions /\ detect self time_slices entry = Some b.
Proof.
  induction definitions as [| e defs IH]; simpl.
  - split; [tauto | intros [entry [[] _]]].
  - destruct (detect self time_slices e) as [b0 |] eqn:E; simpl; rewrite IH.
    + split.
      * intros [<- | [entry [H1 H2]]]; eauto.
      * intros [entry [[<- | H1] H2]]; [left; congruence | eauto].
    + split.
      * intros [entry [H1 H2]]; eauto.
      * intros [entry [[<- | H1] H2]]; [congruence | eauto].
Qed.

(** What a detected behavior carries. *)
Lemma detect_Some (self : BehaviorEngine) (time_slices : TimeSlices)
      (c : string) (spec : BehaviorSpec) (b : DetectedBehavior) :
  detect self time_slices (c, spec) = Some b ->
  _min_signals self <= length (active_of self time_slices spec)
  /\ code b = c
  /\ category b = spec_category spec
  /\ status b = "ACTIVE"
  /\ time_slice b = Some (spec_priority_zone spec)
  /\ intensity b =
     Some (Py.round3 (weighted_intensity self (active_of self time_slices spec)))
  /\ signals_count b = Some (length (active_of self time_slices spec)).
Proof.
  unfold detect, active_of.
  destruct (Nat.ltb_spec
              (length (active_signals self
                         (extracted_values
                            (slice_of time_slices (spec_priority_zone spec))
                            (spec_required_signals spec))))
              (_min_signals self)) as [Hlt | Hge]; [discriminate |].
  intros H. inversion H; subst; clear H. simpl. repeat split; auto.
Qed.

Lemma detect_None (self : BehaviorEngine) (time_slices : TimeSlices)
      (c : string) (spec : BehaviorSpec) :
  length (active_of self time_slices spec) < _min_signals self ->
  detect self time_slices (c, spec) = None.
Proof.
  intros H. unfold detect. fold (active_of self time_slices spec).
  apply Nat.ltb_lt in H. now rewrite H.
Qed.

Lemma detect_exists (self : BehaviorEngine) (time_slices : TimeSlices)
      (c : string) (spec : BehaviorSpec) :
  _min_signals self <= length (active_of self time_slices spec) ->
  exists b, detect self time_slices (c, spec) = Some b.
Proof.
  intros H. unfold detect. fold (active_of self time_slices spec).
  destruct (Nat.ltb_spec (length (active_of self time_slices spec))
                         (_min_signals self)); [lia | eauto].
Qed.

(** (1) Merging keeps detected behaviors only, one per code. *)
Lemma merge_variants_In (variants : list DetectedBehavior) (v : DetectedBehavior) :
  In v (merge_variants variants) -> In v variants.
Proof.
  destruct variants as [| v0 [| v1 r]]; simpl; try tauto.
  destruct (in_slice "last_15_min" v0) eqn:E0; [simpl; tauto |].
  destruct (in_slice "last_15_min" v1) eqn:E1; [simpl; tauto |].
  destruct (find (in_slice "last_15_min") r) as [w |] eqn:Ef; simpl.
  - apply find_some in Ef. intros [<- | []]. tauto.
  - tauto.
Qed.

Lemma merge_variants_length (variants : list DetectedBehavior) :
  length (merge_variants variants) <= 1.
Proof.
  destruct variants as [| v0 [| v1 r]]; simpl; try lia.
  destruct (in_slice "last_15_min" v0); [simpl; lia |].
  destruct (in_slice "last_15_min" v1); [simpl; lia |].
  destruct (find (in_slice "last_15_min") r); simpl; lia.
Qed.

Lemma merge_In (l : list DetectedBehavior) (b : DetectedBehavior) :
  In b (_merge_slices l) -> In b l.
Proof.
  unfold _merge_slices. destruct l as [| b0 l0]; [tauto |].
  set (l := b0 :: l0). intros H. apply in_flat_map in H.
  destruct H as [[k bs] [Hg Hb]]. simpl in Hb. apply merge_variants_In in Hb.
  now apply (group_member code l k bs b Hg).
Qed.

Lemma merge_codes_NoDup (l : list DetectedBehavior) :
  NoDup (map code (_merge_slices l)).
Proof.
  unfold _merge_slices. destruct l as [| b0 l0]; [constructor |].
  set (l := b0 :: l0).
  pose proof (group_by_grouped code l) as [Hk _ _ _].
  assert (Hm : forall k bs b, In (k, bs) (group_by code l) -> In b bs -> code b = k).
  { intros k bs b Hg Hb. now apply (group_member code l k bs b Hg). }
  induction (group_by code l) as [| [k bs] g IH]; simpl; [constructor |].
  inversion Hk as [| ? ? Hk0 Hk']; subst. rewrite map_app.
  assert (Hcodes : forall c, In c (map code (merge_variants bs)) -> c = k).
  { intros c Hc. apply in_map_iff in Hc. destruct Hc as [v [<- Hv]].
    apply merge_variants_In in Hv. apply (Hm k bs v); [now left | exact Hv]. }
  apply NoDup_app.
  - pose proof (merge_variants_length bs) as Hlen.
    destruct (merge_variants bs) as [| v [| ? ?]]; simpl in *;
      [constructor | repeat constructor; auto | lia].
  - apply IH; [exact Hk' |]. intros k' bs' b' Hg. apply Hm. now right.
  - intros c Hc Hc'. apply Hcodes in Hc. subst c. apply Hk0.
    apply in_map_iff in Hc'. destruct Hc' as [v [E Hv]].
    apply in_flat_map in Hv. destruct Hv as [[k' bs'] [Hg Hv]]. simpl in Hv.
    apply merge_variants_In in Hv.
    assert (code v = k') by (apply (Hm k' bs' v); [now right | exact Hv]).
    apply in_map_iff. exists (k', bs'). simpl. split; [congruence | exact Hg].
Qed.

End EngineFacts.

Section RecencyFacts.
Import definitions behavior_engine.

Lemma filter_true {T : Type} (l : list T) : filter (fun _ => true) l = l.
Proof. induction l as [| a l IH]; simpl; [reflexivity | now rewrite IH]. Qed.

(** (2) The recency stage keeps a group whole or keeps its last-15 part. *)
Lemma recency_group_cases (cat_behaviors : list DetectedBehavior) :
  recency_group cat_behaviors = cat_behaviors
  \/ (2 <= length cat_behaviors
      /\ (exists g, In g cat_behaviors /\ in_slice "global" g = true)
      /\ recency_group cat_behaviors = filter (in_slice "last_15_min") cat_behaviors).
Proof.
  unfold recency_group.
  destruct (Nat.leb_spec (length cat_behaviors) 1) as [Hle | Hgt]; [now left |].
  destruct (filter (in_slice "global") cat_behaviors) as [| g gs] eqn:Eg; [now left |].
  destruct (filter (in_slice "last_15_min") cat_behaviors) as [| f fs] eqn:Ef;
    [now left |].
  right. split; [lia |]. split; [| reflexivity].
  exists g. apply filter_In. rewrite Eg. now left.
Qed.

Lemma recency_group_filter (cat_behaviors : list DetectedBehavior) :
  exists q, recency_group cat_behaviors = filter q cat_behaviors.
Proof.
  destruct (recency_group_cases cat_behaviors) as [-> | [_ [_ ->]]].
  - exists (fun _ => true). now rewrite filter_true.
  - eauto.
Qed.

Lemma recency_In (l : list DetectedBehavior) (b : DetectedBehavior) :
  In b (_apply_recency_strategy l) -> In b l.
Proof.
  unfold _apply_recency_strategy. destruct l as [| b0 l0]; [tauto |].
  set (l := b0 :: l0). intros H. apply in_flat_map in H.
  destruct H as [[k bs] [Hg Hb]]. simpl in Hb.
  destruct (recency_group_filter bs) as [q Hq]. rewrite Hq in Hb.
  apply filter_In in Hb. now apply (group_member category l k bs b Hg).
Qed.

Lemma recency_codes_NoDup (l : list DetectedBehavior) :
  NoDup (map code l) -> NoDup (map code (_apply_recency_strategy l)).
Proof.
  intros Hn. unfold _apply_recency_strategy. destruct l as [| b0 l0]; [constructor |].
  set (l := b0 :: l0) in *.
  apply flat_map_filter_NoDup.
  - pose proof (group_by_grouped category l) as [_ _ _ Hp].
    eapply Permutation_NoDup; [| exact Hn].
    apply Permutation_map, Permutation_sym, Hp.
  - intros x _. apply recency_group_filter.
Qed.

(** A category seen in both windows loses every GLOBAL behavior. *)
Lemma recency_drops_global (l : list DetectedBehavior) (cat : string)
      (g f b : DetectedBehavior) :
  In g l -> category g = cat -> time_slice g = Some "global" ->
  In f l -> category f = cat -> time_slice f = Some "last_15_min" ->
  In b (_apply_recency_strategy l) -> category b = cat ->
  time_slice b = Some "last_15_min".
Proof.
  intros Hg Hgc Hgs Hf Hfc Hfs Hb Hbc.
  unfold _apply_recency_strategy in Hb. destruct l as [| b0 l0]; [contradiction |].
  set (l := b0 :: l0) in *. apply in_flat_map in Hb.
  destruct Hb as [[k bs] [Hgrp Hb]]. simpl in Hb.
  pose proof (group_by_grouped category l) as [_ Hfil _ _].
  destruct (Hfil _ _ Hgrp) as [Ebs _].
  assert (Hsub : In b bs).
  { destruct (recency_group_filter bs) as [q Hq]. rewrite Hq in Hb.
    now apply filter_In in Hb. }
  assert (Hk : k = cat).
  { rewrite Ebs in Hsub. apply filter_In in Hsub. destruct Hsub as [_ Hs].
    unfold same_key in Hs. apply String.eqb_eq in Hs. congruence. }
  subst k.
  assert (Hgin : In g bs).
  { rewrite Ebs. apply filter_In. split; [exact Hg |].
    unfold same_key. now apply String.eqb_eq. }
  assert (Hfin : In f bs).
  { rewrite Ebs. apply filter_In. split; [exact Hf |].
    unfold same_key. now apply String.eqb_eq. }
  assert (Hlen : 2 <= length bs).
  { apply (two_members bs g f Hgin Hfin). intros ->. congruence. }
  assert (Hin_slice : forall x s, time_slice x = Some s -> in_slice s x = true).
  { intros x s E. unfold in_slice. rewrite E. apply String.eqb_refl. }
  unfold recency_group in Hb.
  destruct (Nat.leb_spec (length bs) 1) as [Hle | _]; [lia |].
  destruct (filter (in_slice "global") bs) as [| g' gs] eqn:Eg.
  { exfalso. assert (H : In g (filter (in_slice "global") bs))
      by (apply filter_In; split; [exact Hgin | now apply Hin_slice]).
    now rewrite Eg in H. }
  destruct (filter (in_slice "last_15_min") bs) as [| f' fs] eqn:Ef.
  { exfalso. assert (H : In f (filter (in_slice "last_15_min") bs))
      by (apply filter_In; split; [exact Hfin | now apply Hin_slice]).
    now rewrite Ef in H. }
  rewrite <- Ef in Hb. apply filter_In in Hb. destruct Hb as [_ Hs].
  unfold in_slice in Hs. destruct (time_slice b) as [s |]; [| discriminate].
  apply String.eqb_eq in Hs. now subst.
Qed.

End RecencyFacts.

Section ContradictionFacts.
Import definitions behavior_engine.

Lemma contradicting_sym (a b : string) :
  are_behaviors_contradicting a b = are_behaviors_contradicting b a.
Proof.
  unfold are_behaviors_contradicting, CONTRADICTION_PAIRS. simpl.
  now rewrite !(andb_comm (in_pair a _)).
Qed.

(** Two distinct codes contradict exactly when they make up a pair of the
    table; the two codes of a pair always differ. *)
Lemma contradicting_registered (a b : string) :
  a <> b -> are_behaviors_contradicting a b = true -> registered_pair a b.
Proof.
  intros Hne H. unfold are_behaviors_contradicting in H.
  apply existsb_exists in H. destruct H as [[x y] [Hin H]].
  apply andb_true_iff in H. destruct H as [Ha Hb].
  unfold in_pair in Ha, Hb. simpl in Ha, Hb.
  apply orb_true_iff in Ha, Hb. rewrite !String.eqb_eq in Ha, Hb.
  destruct Ha as [-> | ->], Hb as [-> | ->]; try congruence.
  - now left.
  - now right.
Qed.

Lemma registered_contradicting (a b : string) :
  registered_pair a b -> are_behaviors_contradicting a b = true /\ a <> b.
Proof.
  unfold registered_pair, CONTRADICTION_PAIRS. simpl.
  intros [H | H]; repeat destruct H as [H | H]; try contradiction;
    inversion H; subst; split; try reflexivity; discriminate.
Qed.

Lemma note_pair_grows (a b : string) (st : bool * list string) :
  fst st = true -> fst (note_pair a st b) = true.
Proof.
  unfold note_pair. destruct (are_behaviors_contradicting a b); auto.
Qed.

Lemma fold_note_grows (a : string) (l : list string) (st : bool * list string) :
  fst st = true -> fst (fold_left (note_pair a) l st) = true.
Proof.
  intros H. apply fold_left_invariant; [exact H |].
  intros s x _. apply note_pair_grows.
Qed.

Lemma scan_grows (codes : list string) (st : bool * list string) :
  fst st = true -> fst (scan_pairs codes st) = true.
Proof.
  revert st. induction codes as [| a codes IH]; intros st H; simpl; [exact H |].
  apply IH, fold_note_grows, H.
Qed.

Lemma fold_note_finds (a b : string) (l : list string) (st : bool * list string) :
  In b l -> are_behaviors_contradicting a b = true ->
  fst (fold_left (note_pair a) l st) = true.
Proof.
  revert st. induction l as [| x l IH]; intros st Hin Hc; simpl; [contradiction |].
  destruct Hin as [-> | Hin].
  - apply fold_note_grows. unfold note_pair. now rewrite Hc.
  - now apply IH.
Qed.

(** The double loop finds a contradiction between any two distinct codes
    of the group ... *)
Lemma scan_finds (codes : list string) (a b : string) (st : bool * list string) :
  In a codes -> In b codes -> a <> b ->
  are_behaviors_contradicting a b = true ->
  fst (scan_pairs codes st) = true.
Proof.
  revert st. induction codes as [| c codes IH]; intros st Ha Hb Hne Hc; simpl;
    [contradiction |].
  destruct Ha as [<- | Ha], Hb as [<- | Hb].
  - congruence.
  - apply scan_grows. now apply (fold_note_finds c b).
  - apply scan_grows. apply (fold_note_finds c a); [exact Ha |].
    now rewrite contradicting_sym.
  - now apply IH.
Qed.

Lemma fold_note_sound (a : string) (l : list string) (st : bool * list string) :
  fst (fold_left (note_pair a) l st) = true ->
  fst st = true \/ exists b, In b l /\ are_behaviors_contradicting a b = true.
Proof.
  revert st. induction l as [| x l IH]; intros st H; simpl in *; [now left |].
  destruct (IH _ H) as [H' | [b [Hb Hc]]].
  - unfold note_pair in H'.
    destruct (are_behaviors_contradicting a x) eqn:E; [| now left].
    right. exists x. auto.
  - right. exists b. auto.
Qed.

(** ... and only then. *)
Lemma scan_sound (codes : list string) (st : bool * list string) :
  NoDup codes ->
  fst (scan_pairs codes st) = true ->
  fst st = true
  \/ exists a b, In a codes /\ In b codes /\ a <> b
                 /\ are_behaviors_contradicting a b = true.
Proof.
  revert st. induction codes as [| c codes IH]; intros st Hn H; simpl in *;
    [now left |].
  inversion Hn as [| ? ? Hc Hn']; subst.
  destruct (IH _ Hn' H) as [H' | [a [b [Ha [Hb [Hne Hab]]]]]].
  - destruct (fold_note_sound _ _ _ H') as [H0 | [b [Hb Hcb]]]; [now left |].
    right. exists c, b. repeat split; auto. intros ->. contradiction.
  - right. exists a, b. auto.
Qed.

Lemma note_pair_codes (a b c : string) (l : list string) (st : bool * list string) :
  In a l -> In b l -> In c (snd (note_pair a st b)) -> In c (snd st) \/ In c l.
Proof.
  intros Ha Hb. unfold note_pair. destruct (are_behaviors_contradicting a b); auto.
  simpl. rewrite !set_add_In. intros [-> | [-> | H]]; auto.
Qed.

(** The codes collected in [details] are codes of the group. *)
Lemma scan_codes (codes : list string) (st : bool * list string) (c : string) :
  In c (snd (scan_pairs codes st)) -> In c (snd st) \/ In c codes.
Proof.
  revert st. induction codes as [| a codes IH]; intros st H; simpl in *; [now left |].
  destruct (IH _ H) as [H' | H']; [| now right; right].
  revert H'. apply fold_left_invariant with
    (P := fun s => In c (snd s) -> In c (snd st) \/ a = c \/ In c codes).
  - now left.
  - intros s x Hx Hs Hc.
    destruct (note_pair_codes a x c (a :: codes) s) as [H1 | [H1 | H1]]; simpl; auto.
Qed.

(** (3) What a group turns into. *)
Lemma resolve_group_cases (cat : string) (cat_behaviors : list DetectedBehavior) :
  let st := scan_pairs (map code cat_behaviors) (false, []) in
  (resolve_group (cat, cat_behaviors) = cat_behaviors
   /\ (length cat_behaviors <= 1 \/ fst st = false))
  \/ (2 <= length cat_behaviors /\ fst st = true
      /\ resolve_group (cat, cat_behaviors) =
         ambiguous_behavior cat (snd st)
         :: filter (fun b => negb (Py.mem (code b) (snd st))) cat_behaviors).
Proof.
  intros st. unfold resolve_group. fold st.
  destruct (Nat.leb_spec (length cat_behaviors) 1) as [Hle | Hgt]; [left; auto |].
  destruct st as [[|] cc]; simpl.
  - right. repeat split; auto.
  - left. auto.
Qed.

Lemma resolve_In (l : list DetectedBehavior) (b : DetectedBehavior) :
  In b (_resolve_contradictions l) ->
  In b l
  \/ exists cat bs,
       In (cat, bs) (group_by category l)
       /\ fst (scan_pairs (map code bs) (false, [])) = true
       /\ b = ambiguous_behavior cat (snd (scan_pairs (map code bs) (false, []))).
Proof.
  unfold _resolve_contradictions. destruct l as [| b0 l0]; [tauto |].
  set (l := b0 :: l0). intros H. apply in_flat_map in H.
  destruct H as [[k bs] [Hg Hb]].
  destruct (resolve_group_cases k bs) as [[E _] | [_ [Hf E]]]; rewrite E in Hb.
  - left. now apply (group_member category l k bs b Hg).
  - destruct Hb as [<- | Hb].
    + right. exists k, bs. auto.
    + left. apply filter_In in Hb. now apply (group_member category l k bs b Hg).
Qed.

Lemma sort_In (l : list DetectedBehavior) (b : DetectedBehavior) :
  In b (_sort_by_priority l) <-> In b l.
Proof.
  unfold _sort_by_priority. destruct l as [| b0 l0]; [tauto |].
  apply sorted_In.
Qed.

End ContradictionFacts.

Section PipelineFacts.
Import definitions behavior_engine.

Lemma raw_status (self : BehaviorEngine) (time_slices : TimeSlices)
      (definitions : list (string * BehaviorSpec)) (b : DetectedBehavior) :
  In b (raw_behaviors self time_slices definitions) -> status b = "ACTIVE".
Proof.
  intros H. apply raw_behaviors_In in H. destruct H as [[c spec] [_ H]].
  now apply detect_Some in H.
Qed.

Lemma after_recency_raw (self : BehaviorEngine) (time_slices : TimeSlices)
      (b : DetectedBehavior) :
  In b (after_recency self time_slices) ->
  In b (merged self time_slices)
  /\ In b (raw_behaviors self time_slices (_definitions self)).
Proof.
  intros H. apply recency_In in H. split; [exact H |]. now apply merge_In in H.
Qed.

Lemma after_recency_codes_NoDup (self : BehaviorEngine) (time_slices : TimeSlices) :
  NoDup (map code (after_recency self time_slices)).
Proof. apply recency_codes_NoDup, merge_codes_NoDup. Qed.

(** What the final list holds: behaviors that passed the recency stage,
    and ambiguity markers made from a group of them. *)
Lemma resolved_In (self : BehaviorEngine) (time_slices : TimeSlices)
      (b : DetectedBehavior) :
  In b (resolved self time_slices) ->
  (In b (after_recency self time_slices) /\ status b = "ACTIVE")
  \/ exists cat bs,
       In (cat, bs) (group_by category (after_recency self time_slices))
       /\ fst (scan_pairs (map code bs) (false, [])) = true
       /\ b = ambiguous_behavior cat (snd (scan_pairs (map code bs) (false, []))).
Proof.
  unfold resolved. rewrite sort_In. intros H. apply resolve_In in H.
  destruct H as [H | H]; [left | right; exact H].
  split; [exact H |]. apply after_recency_raw in H. destruct H as [_ H].
  eapply raw_status, H.
Qed.

Lemma resolve_intro (l : list DetectedBehavior) (cat : string)
      (bs : list DetectedBehavior) (x : DetectedBehavior) :
  In (cat, bs) (group_by category l) -> In x (resolve_group (cat, bs)) ->
  In x (_resolve_contradictions l).
Proof.
  intros Hg Hx. unfold _resolve_contradictions. destruct l as [| b0 l0].
  - contradiction.
  - apply in_flat_map. exists (cat, bs). auto.
Qed.

(** An ACTIVE entry of the final list is the behavior detected for a
    registry entry with its code. *)
Lemma resolved_active (self : BehaviorEngine) (time_slices : TimeSlices)
      (b : DetectedBehavior) :
  In b (resolved self time_slices) -> status b = "ACTIVE" ->
  exists spec, In (code b, spec) (_definitions self)
               /\ detect self time_slices (code b, spec) = Some b.
Proof.
  intros H Hs. apply resolved_In in H. destruct H as [[H _] | [cat [bs [_ [_ E]]]]].
  - apply after_recency_raw in H. destruct H as [_ H].
    apply raw_behaviors_In in H. destruct H as [[c spec] [Hin Hd]].
    pose proof (detect_Some _ _ _ _ _ Hd) as [_ [Hc _]]. subst c. eauto.
  - subst b. discriminate.
Qed.

End PipelineFacts.

(* ======================================================================= *)
(** * Properties of [BehaviorEngine.compute_behaviors] *)
(* ======================================================================= *)

Section EngineClaims.
Import definitions behavior_engine.

(** The categories of the shipped registry. *)
Lemma registry_categories (c : string) (spec : BehaviorSpec) :
  In (c, spec) BEHAVIOR_DEFINITIONS -> In (spec_category spec) CATEGORIES.
Proof.
  unfold BEHAVIOR_DEFINITIONS. intro H.
  repeat (destruct H as [H | H]; [injection H as <- <-; simpl; tauto |]).
  destruct H.
Qed.

(** C3.  The result holds an AMBIGUOUS entry of a category exactly when
    two behaviors of that category are left after the recency stage whose
    codes make up a registered contradiction pair.  Every code such an
    entry subsumes belongs to a behavior of its own category that was left
    after the recency stage.  Its code is AMBIGU_ followed by the first
    three letters of its category in upper case: AMBIGU_STA for stability,
    AMBIGU_INT for intensity and AMBIGU_PSY for psychology, which are the
    only categories, hence the only marker codes, of the shipped registry;
    two contradicting psychology behaviors give the one entry AMBIGU_PSY. *)
Theorem ambiguous_iff_contradiction_after_recency
        (self : BehaviorEngine) (utcnow : string) (signals : SignalMap)
        (time_slices : TimeSlices) (cat : string) :
  let out := behaviors (compute_behaviors self utcnow signals time_slices) in
  let kept := after_recency self time_slices in
  ((exists a, In a out /\ status a = "AMBIGUOUS" /\ category a = cat)
   <-> (exists b1 b2, In b1 kept /\ In b2 kept
                      /\ category b1 = cat /\ category b2 = cat
                      /\ registered_pair (code b1) (code b2)))
  /\ (forall a, In a out -> status a = "AMBIGUOUS" ->
        ((category a = "stability" -> code a = "AMBIGU_STA")
         /\ (category a = "intensity" -> code a = "AMBIGU_INT")
         /\ (category a = "psychology" -> code a = "AMBIGU_PSY"))
        /\ exists subsumed,
             details a = Some subsumed
             /\ forall c, In c subsumed ->
                          exists b, In b kept /\ code b = c
                                    /\ category b = category a)
  /\ (_definitions self = BEHAVIOR_DEFINITIONS ->
      forall a, In a out -> status a = "AMBIGUOUS" ->
        In (category a, code a)
           [ ("stability", "AMBIGU_STA"); ("intensity", "AMBIGU_INT");
             ("psychology", "AMBIGU_PSY") ])
  /\ map (fun b => (code b, category b, status b, details b))
         (behaviors (compute_behaviors create_behavior_engine "2025-01-01T15:00:00" []
                       scenario_psy))
     = [ ("AMBIGU_PSY", "psychology", "AMBIGUOUS", Some ["PSY_01"; "PSY_02"]) ].
Proof.
  intros out kept. subst out. simpl behaviors.
  split; [split | split; [| split]].
  - intros [a [Ha [Hs Hc]]]. apply resolved_In in Ha.
    destruct Ha as [[_ Ha] | [k [bs [Hg [Hf E]]]]]; [congruence |].
    subst a. simpl in Hc. subst k.
    assert (Hn : NoDup (map code bs)).
    { destruct (group_by_grouped category kept) as [_ Hfil _ _].
      destruct (Hfil _ _ Hg) as [-> _].
      apply NoDup_map_filter, after_recency_codes_NoDup. }
    destruct (scan_sound _ _ Hn Hf) as [H | [x [y [Hx [Hy [Hne Hxy]]]]]];
      [discriminate |].
    apply in_map_iff in Hx, Hy.
    destruct Hx as [b1 [<- H1]], Hy as [b2 [<- H2]].
    destruct (group_member category kept cat bs b1 Hg H1) as [H1' H1''].
    destruct (group_member category kept cat bs b2 Hg H2) as [H2' H2''].
    exists b1, b2. repeat split; auto. now apply contradicting_registered.
  - intros [b1 [b2 [H1 [H2 [Hc1 [Hc2 Hr]]]]]].
    apply registered_contradicting in Hr. destruct Hr as [Hxy Hne].
    pose proof (group_by_In category kept b1 H1) as Hg. rewrite Hc1 in Hg.
    set (bs := filter (same_key category cat) kept) in *.
    assert (Hb1 : In b1 bs)
      by (apply filter_In; split; [exact H1 | now apply String.eqb_eq]).
    assert (Hb2 : In b2 bs)
      by (apply filter_In; split; [exact H2 | now apply String.eqb_eq]).
    assert (Hf : fst (scan_pairs (map code bs) (false, [])) = true).
    { apply (scan_finds _ (code b1) (code b2)); auto; now apply in_map. }
    assert (Hlen : 2 <= length bs).
    { apply (two_members bs b1 b2 Hb1 Hb2). congruence. }
    exists (ambiguous_behavior cat (snd (scan_pairs (map code bs) (false, [])))).
    split; [| split; reflexivity].
    unfold resolved. apply sort_In. apply (resolve_intro _ cat bs); [exact Hg |].
    destruct (resolve_group_cases cat bs) as [[_ [H | H]] | [_ [_ ->]]];
      [lia | congruence | now left].
  - intros a Ha Hs. apply resolved_In in Ha.
    destruct Ha as [[_ Ha] | [k [bs [Hg [Hf E]]]]]; [congruence |].
    subst a. split.
    + simpl category. split; [| split]; intros ->; reflexivity.
    + simpl. eexists. split; [reflexivity |]. intros c Hc.
      apply scan_codes in Hc. destruct Hc as [[] | Hc].
      apply in_map_iff in Hc. destruct Hc as [b [<- Hb]].
      destruct (group_member category kept k bs b Hg Hb) as [Hb' Hb''].
      exists b. auto.
  - intros Hreg a Ha Hs. apply resolved_In in Ha.
    destruct Ha as [[_ Ha] | [k [bs [Hg [Hf E]]]]]; [congruence |].
    subst a.
    destruct (grouped_filter _ _ _ (group_by_grouped category kept) k bs Hg) as [_ Hne].
    destruct bs as [| b bs']; [congruence |].
    destruct (group_member category kept k (b :: bs') b Hg (or_introl eq_refl))
      as [Hb Hk].
    apply after_recency_raw in Hb. destruct Hb as [_ Hb].
    apply raw_behaviors_In in Hb. destruct Hb as [[c spec] [Hin Hd]].
    rewrite Hreg in Hin. apply registry_categories in Hin.
    apply detect_Some in Hd. destruct Hd as [_ [_ [Hcat _]]].
    rewrite <- Hk, Hcat. simpl in Hin.
    destruct Hin as [<- | [<- | [<- | []]]]; simpl; auto.
  - vm_compute. reflexivity.
Qed.

(** C4.  If, after the merge stage, a category holds a behavior of the
    global slice and one of the last_15_min slice, then no behavior of that
    category with the global slice is left after the recency stage, nor in
    the result; whether the codes contradict plays no part. *)
Theorem recency_drops_global_behaviors
        (self : BehaviorEngine) (utcnow : string) (signals : SignalMap)
        (time_slices : TimeSlices) (cat : string) :
  (exists g, In g (merged self time_slices)
             /\ category g = cat /\ time_slice g = Some "global") ->
  (exists f, In f (merged self time_slices)
             /\ category f = cat /\ time_slice f = Some "last_15_min") ->
  (forall b, In b (after_recency self time_slices) ->
             category b = cat -> time_slice b <> Some "global")
  /\ (forall b, In b (behaviors (compute_behaviors self utcnow signals time_slices)) ->
                category b = cat -> time_slice b <> Some "global").
Proof.
  intros [g [Hg [Hgc Hgs]]] [f [Hf [Hfc Hfs]]].
  assert (H : forall b, In b (after_recency self time_slices) ->
                        category b = cat -> time_slice b = Some "last_15_min").
  { intros b Hb Hc.
    exact (recency_drops_global _ cat g f b Hg Hgc Hgs Hf Hfc Hfs Hb Hc). }
  split.
  - intros b Hb Hc. rewrite (H b Hb Hc). discriminate.
  - simpl behaviors. intros b Hb Hc. apply resolved_In in Hb.
    destruct Hb as [[Hb _] | [k [bs [_ [_ E]]]]].
    + rewrite (H b Hb Hc). discriminate.
    + subst b. discriminate.
Qed.

Lemma recency_drops_global_witness :
  (forall b, In b (after_recency create_behavior_engine scenario_B) ->
             category b = "stability" -> time_slice b <> Some "global")
  /\ (forall b, In b (behaviors (compute_behaviors create_behavior_engine
                                   "2025-01-01T15:00:00" [] scenario_B)) ->
                category b = "stability" -> time_slice b <> Some "global").
Proof.
  apply (recency_drops_global_behaviors create_behavior_engine
           "2025-01-01T15:00:00" [] scenario_B "stability").
  - eexists. split; [vm_compute; right; left; reflexivity |]. split; reflexivity.
  - eexists. split; [vm_compute; left; reflexivity |]. split; reflexivity.
Defined.

End EngineClaims.

Section IntensityClaims.
Import definitions behavior_engine.

Lemma registry_codes_NoDup : NoDup (map fst BEHAVIOR_DEFINITIONS).
Proof.
  simpl. repeat constructor; simpl; intuition discriminate.
Qed.

Lemma registry_codes_plain (c : string) (spec : BehaviorSpec) :
  In (c, spec) BEHAVIOR_DEFINITIONS -> Py.startswith c "AMBIGU_" = false.
Proof.
  intros H.
  assert (Hall : forallb (fun e => negb (Py.startswith (fst e) "AMBIGU_"))
                         BEHAVIOR_DEFINITIONS = true) by reflexivity.
  rewrite forallb_forall in Hall. specialize (Hall _ H). simpl in Hall.
  now apply negb_true_iff in Hall.
Qed.

Lemma startswith_marker (x : string) :
  Py.startswith ("AMBIGU_" ++ x) "AMBIGU_" = true.
Proof. unfold Py.startswith. simpl. destruct x; reflexivity. Qed.

(** Below the convergence floor a registry entry yields no behavior: only
    an ambiguity marker could carry its code. *)
Lemma below_floor (self : BehaviorEngine) (time_slices : TimeSlices)
      (c : string) (spec : BehaviorSpec) (b : DetectedBehavior) :
  NoDup (map fst (_definitions self)) ->
  In (c, spec) (_definitions self) ->
  length (active_of self time_slices spec) < _min_signals self ->
  In b (resolved self time_slices) -> code b = c ->
  Py.startswith c "AMBIGU_" = true.
Proof.
  intros Hn Hin Hlt Hb Hc. destruct (resolved_In _ _ _ Hb) as [[_ Hs] | [k [bs [_ [_ E]]]]].
  - destruct (resolved_active _ _ _ Hb Hs) as [spec' [Hin' Hd]].
    rewrite Hc in Hin', Hd.
    rewrite (assoc_unique _ _ _ _ Hn Hin' Hin) in Hd.
    rewrite (detect_None _ _ _ _ Hlt) in Hd. discriminate.
  - subst b c. apply startswith_marker.
Qed.

(** C5.  For every entry of the registry and every time-slice signal map:
    if fewer than 2 of the entry's required signals are at or above the
    0.6 threshold in its priority-zone window (a missing key counting as
    0.0), the result holds no behavior with that code. *)
Theorem convergence_floor
        (utcnow : string) (signals : SignalMap) (time_slices : TimeSlices)
        (c : string) (spec : BehaviorSpec) :
  In (c, spec) BEHAVIOR_DEFINITIONS ->
  length (filter (fun v => PrimFloat.leb SIGNAL_ACTIVATION_THRESHOLD v)
            (extracted_values (slice_of time_slices (spec_priority_zone spec))
                              (spec_required_signals spec))) < 2 ->
  forall b,
    In b (behaviors (compute_behaviors create_behavior_engine utcnow signals time_slices)) ->
    code b <> c.
Proof.
  intros Hin Hlt b Hb Hc. simpl behaviors in Hb.
  pose proof (below_floor create_behavior_engine time_slices c spec b
                registry_codes_NoDup Hin Hlt Hb Hc) as H.
  rewrite (registry_codes_plain c spec Hin) in H. discriminate.
Qed.

Lemma convergence_floor_witness :
  In ("STB_01", mkSpec "STB_01" "Effondrement Structurel" (Some "Structural Collapse")
                  "stability" ["low_block_drop"; "xg_against_spike"]
                  "last_15_min" ["STB_02"] MIN_REQUIRED_SIGNALS)
     BEHAVIOR_DEFINITIONS
  /\ forall b,
       In b (behaviors (compute_behaviors create_behavior_engine "2025-01-01T15:00:00" []
                          [("last_15_min", [("low_block_drop", 0.75%float)])])) ->
       code b <> "STB_01".
Proof.
  split; [left; reflexivity |].
  apply (convergence_floor "2025-01-01T15:00:00" []
           [("last_15_min", [("low_block_drop", 0.75%float)])]
           "STB_01"
           (mkSpec "STB_01" "Effondrement Structurel" (Some "Structural Collapse")
                   "stability" ["low_block_drop"; "xg_against_spike"]
                   "last_15_min" ["STB_02"] MIN_REQUIRED_SIGNALS)).
  - left. reflexivity.
  - vm_compute. lia.
Defined.

(** C6, as the code has it.  For a registry entry with exactly 2 required
    signals at or above 0.6, a behavior is produced and its intensity is
    the mean of the active values rounded to 3 decimals, with no
    weighting; with exactly 3, it is the mean times 1.5, rounded to 3
    decimals.  An ACTIVE entry of the result with the entry's code carries
    that same intensity. *)
Theorem intensity_is_rounded_mean
        (definitions : list (string * BehaviorSpec)) (utcnow : string)
        (signals : SignalMap) (time_slices : TimeSlices)
        (c : string) (spec : BehaviorSpec) :
  NoDup (map fst definitions) ->
  In (c, spec) definitions ->
  let self := engine_of definitions in
  let active := active_of self time_slices spec in
  (length active = 2 ->
   exists b, detect self time_slices (c, spec) = Some b
             /\ intensity b = Some (Py.round3 (mean active)))
  /\ (length active = 3 ->
      exists b, detect self time_slices (c, spec) = Some b
                /\ intensity b = Some (Py.round3 (mean active * 1.5)))
  /\ (forall b,
        In b (behaviors (compute_behaviors self utcnow signals time_slices)) ->
        code b = c -> status b = "ACTIVE" ->
        (length active = 2 -> intensity b = Some (Py.round3 (mean active)))
        /\ (length active = 3 -> intensity b = Some (Py.round3 (mean active * 1.5)))).
Proof.
  intros Hn Hin self active.
  assert (Hw2 : length active = 2 -> weighted_intensity self active = mean active).
  { intros E. unfold weighted_intensity. now rewrite E. }
  assert (Hw3 : length active = 3 ->
                weighted_intensity self active = (mean active * 1.5)%float).
  { intros E. unfold weighted_intensity. now rewrite E. }
  assert (Hd : forall b, detect self time_slices (c, spec) = Some b ->
                         intensity b = Some (Py.round3 (weighted_intensity self active))).
  { intros b H. now apply detect_Some in H. }
  assert (Hex : 2 <= length active ->
                exists b, detect self time_slices (c, spec) = Some b
                          /\ intensity b = Some (Py.round3 (weighted_intensity self active))).
  { intros H. destruct (detect_exists self time_slices c spec H) as [b Hb]. eauto. }
  split; [| split].
  - intros E. rewrite <- (Hw2 E). apply Hex. fold active. lia.
  - intros E. rewrite <- (Hw3 E). apply Hex. fold active. lia.
  - intros b Hb Hc Hs. simpl behaviors in Hb.
    destruct (resolved_active _ _ _ Hb Hs) as [spec' [Hin' Hd']].
    rewrite Hc in Hin', Hd'.
    rewrite (assoc_unique _ _ _ _ Hn Hin' Hin) in Hd'.
    apply Hd in Hd'. rewrite Hd'.
    split; intros E; [now rewrite (Hw2 E) | now rewrite (Hw3 E)].
Qed.

Lemma intensity_is_rounded_mean_witness :
  NoDup (map fst TRIPLE_SIGNAL_DEFINITIONS)
  /\ In ("TRI_01", TRI_01_spec) TRIPLE_SIGNAL_DEFINITIONS
  /\ length (active_of (engine_of TRIPLE_SIGNAL_DEFINITIONS) scenario_three TRI_01_spec) = 3
  /\ exists b,
       detect (engine_of TRIPLE_SIGNAL_DEFINITIONS) scenario_three ("TRI_01", TRI_01_spec)
       = Some b
       /\ intensity b =
          Some (Py.round3
                  (mean (active_of (engine_of TRIPLE_SIGNAL_DEFINITIONS)
                                   scenario_three TRI_01_spec) * 1.5)).
Proof.
  assert (Hn : NoDup (map fst TRIPLE_SIGNAL_DEFINITIONS))
    by (simpl; repeat constructor; simpl; tauto).
  assert (Hin : In ("TRI_01", TRI_01_spec) TRIPLE_SIGNAL_DEFINITIONS)
    by (left; reflexivity).
  assert (Hlen : length (active_of (engine_of TRIPLE_SIGNAL_DEFINITIONS)
                                   scenario_three TRI_01_spec) = 3)
    by (vm_compute; reflexivity).
  split; [exact Hn |]. split; [exact Hin |]. split; [exact Hlen |].
  exact (proj1 (proj2 (intensity_is_rounded_mean
                         TRIPLE_SIGNAL_DEFINITIONS "2025-01-01T15:00:00" []
                         scenario_three "TRI_01" TRI_01_spec Hn Hin)) Hlen).
Defined.

(** C6 as stated fails: with the two STB_01 signals at 0.625 and 0.75 the
    mean is 0.6875 and the intensity produced is 0.688. *)
Lemma intensity_differs_from_mean :
  let active := active_of create_behavior_engine scenario_sixteenths STB_01_spec in
  In ("STB_01", STB_01_spec) BEHAVIOR_DEFINITIONS
  /\ length active = 2
  /\ mean active = 0.6875%float
  /\ exists b,
       In b (behaviors (compute_behaviors create_behavior_engine "2025-01-01T15:00:00"
                          [] scenario_sixteenths))
       /\ code b = "STB_01" /\ status b = "ACTIVE"
       /\ intensity b = Some (thousandths 688)
       /\ intensity b <> Some (mean active).
Proof.
  intros active. split; [left; reflexivity |].
  split; [vm_compute; reflexivity |]. split; [vm_compute; reflexivity |].
  eexists. split; [vm_compute; left; reflexivity |].
  repeat split.
  intros H.
  apply (f_equal (fun o => match o with
                           | Some x => Prim2SF x
                           | None => S754_nan
                           end)) in H.
  vm_compute in H. discriminate.
Qed.

(** C10.  Every ACTIVE entry of the result carries, as its intensity, the
    value computed for its registry entry (the mean of the active signals,
    times 1.5 when 3 or more are active) rounded to 3 decimals by [round],
    which sends ties to the even neighbor.  The reported intensity can so
    differ from the mean: signals 0.625 and 0.75 have mean 0.6875 and are
    reported as 0.688; signals 0.75 and 0.875 have mean 0.8125 and are
    reported as 0.812. *)
Theorem intensity_is_rounded_to_three_decimals :
  (forall (definitions : list (string * BehaviorSpec)) (utcnow : string)
          (signals : SignalMap) (time_slices : TimeSlices) (b : DetectedBehavior),
      let self := engine_of definitions in
      In b (behaviors (compute_behaviors self utcnow signals time_slices)) ->
      status b = "ACTIVE" ->
      exists spec,
        In (code b, spec) definitions
        /\ let active := active_of self time_slices spec in
           intensity b =
           Some (Py.round3 (if Nat.leb 3 (length active)
                            then (mean active * 1.5)%float
                            else mean active)))
  /\ (map intensity
          (behaviors (compute_behaviors create_behavior_engine "2025-01-01T15:00:00"
                        [] scenario_sixteenths)) = [Some (thousandths 688)]
      /\ mean (active_of create_behavior_engine scenario_sixteenths STB_01_spec)
         = 0.6875%float
      /\ thousandths 688 <> 0.6875%float)
  /\ (map intensity
          (behaviors (compute_behaviors create_behavior_engine "2025-01-01T15:00:00"
                        [] scenario_tie)) = [Some (thousandths 812)]
      /\ mean (active_of create_behavior_engine scenario_tie STB_01_spec)
         = 0.8125%float)
  /\ Py.round3 0.6875 = thousandths 688
  /\ Py.round3 0.8125 = thousandths 812.
Proof.
  split; [| split; [| split; [| split]]].
  - intros definitions utcnow signals time_slices b self Hb Hs. simpl behaviors in Hb.
    destruct (resolved_active _ _ _ Hb Hs) as [spec [Hin Hd]].
    exists spec. split; [exact Hin |]. apply detect_Some in Hd.
    destruct Hd as [_ [_ [_ [_ [_ [Hi _]]]]]]. exact Hi.
  - repeat split; try (vm_compute; reflexivity).
    intros H. apply (f_equal Prim2SF) in H. vm_compute in H. discriminate.
  - split; vm_compute; reflexivity.
  - vm_compute. reflexivity.
  - vm_compute. reflexivity.
Qed.

End IntensityClaims.

(* ======================================================================= *)
(** * Repeated calls *)
(* ======================================================================= *)

Section RepeatedCalls.
Import definitions behavior_engine pattern_engine match_flow.

(** C1, as the code has it.  Two calls of [compute_behaviors] with the same
    arguments return the same behavior list and the same metadata except
    for [timestamp], which is the clock reading of each call.  Two calls of
    [compute_patterns] with the same arguments return the same pattern
    list, source lists included, in whatever order the rule frozensets
    are iterated.  [reconstruct] reads its argument only, and numbers the
    phases by position. *)
Theorem resolvers_repeat_up_to_timestamp
        (self : BehaviorEngine) (utcnow1 utcnow2 : string) (signals : SignalMap)
        (time_slices : TimeSlices)
        (patterns_self : PatternEngine) (listing1 listing2 : list string -> list string)
        (dicts : list BehaviorDict) (visual_signals : option (list string)) :
  (forall s, Permutation (listing1 s) s) ->
  (forall s, Permutation (listing2 s) s) ->
  let first := compute_behaviors self utcnow1 signals time_slices in
  let second := compute_behaviors self utcnow2 signals time_slices in
  behaviors second = behaviors first
  /\ second = with_timestamp (utcnow2 ++ "Z") first
  /\ timestamp (meta first) = (utcnow1 ++ "Z")%string
  /\ compute_patterns patterns_self listing1 dicts visual_signals
     = compute_patterns patterns_self listing2 dicts visual_signals
  /\ forall i s,
       nth_error (reconstruct dicts) i = Some s ->
       exists p, nth_error (limited_phases dicts) i = Some p /\ s = numbered i p.
Proof.
  intros H1 H2 first second.
  split; [reflexivity |]. split; [reflexivity |]. split; [reflexivity |].
  split; [now apply compute_patterns_listing |].
  intros i s. unfold reconstruct. rewrite enumerate_from_nth. simpl.
  destruct (nth_error (limited_phases dicts) i) as [p |]; simpl; [| discriminate].
  intros H. exists p. split; congruence.
Qed.

Lemma resolvers_repeat_witness :
  (forall s : list string, Permutation ((fun l => l) s) s)
  /\ (forall s : list string, Permutation (rev s) s)
  /\ behaviors (compute_behaviors create_behavior_engine "2025-01-01T15:00:01" []
                  scenario_psy)
     = behaviors (compute_behaviors create_behavior_engine "2025-01-01T15:00:00" []
                    scenario_psy)
  /\ compute_patterns create_pattern_engine (fun l => l) three_doubles_match None
     = compute_patterns create_pattern_engine (@rev string) three_doubles_match None.
Proof.
  assert (H1 : forall s : list string, Permutation ((fun l => l) s) s)
    by (intros s; apply Permutation_refl).
  assert (H2 : forall s : list string, Permutation (rev s) s)
    by (intros s; apply Permutation_sym, Permutation_rev).
  split; [exact H1 |]. split; [exact H2 |].
  destruct (resolvers_repeat_up_to_timestamp
              create_behavior_engine "2025-01-01T15:00:00" "2025-01-01T15:00:01" []
              scenario_psy create_pattern_engine (fun l => l) (@rev string)
              three_doubles_match None H1 H2) as [Hb [_ [_ [Hp _]]]].
  split; [exact Hb | exact Hp].
Defined.

(** C1 as stated fails for [compute_behaviors]: the same arguments at two
    clock readings give two different results. *)
Lemma timestamp_differs_between_calls :
  let first := compute_behaviors create_behavior_engine
                 "2025-01-01T15:00:00.000001" [] scenario_B in
  let second := compute_behaviors create_behavior_engine
                  "2025-01-01T15:00:00.000002" [] scenario_B in
  timestamp (meta first) = "2025-01-01T15:00:00.000001Z"
  /\ timestamp (meta second) = "2025-01-01T15:00:00.000002Z"
  /\ behaviors first = behaviors second
  /\ first <> second.
Proof.
  intros first second.
  split; [reflexivity |]. split; [reflexivity |]. split; [reflexivity |].
  intros H. apply (f_equal (fun r => timestamp (meta r))) in H.
  subst first second. cbn [compute_behaviors meta timestamp] in H. discriminate.
Qed.

End RepeatedCalls.

(* ======================================================================= *)
(** * The scenarios of the specification, evaluated *)
(* ======================================================================= *)

Section Scenarios.
Import definitions behavior_engine pattern_engine match_flow.

(** [round(x, 3)] on values that are exact in binary64: ties go to the
    even neighbor, a value with 3 decimals or fewer is returned as it is,
    the sign is kept. *)
Example round3_values :
  Py.round3 0.0625 = thousandths 62
  /\ Py.round3 0.6875 = thousandths 688
  /\ Py.round3 0.8125 = thousandths 812
  /\ Py.round3 1.125 = 1.125%float
  /\ Py.round3 0.75 = 0.75%float
  /\ Py.round3 (-0.0625) = (- thousandths 62)%float
  /\ Py.round3 1125899906842624 = 1125899906842624%float.
Proof. repeat split; vm_compute; reflexivity. Qed.

(** Scenario A: STB_01 is ACTIVE with intensity 0.75. *)
Example scenario_A_result :
  map (fun b => (code b, status b, intensity b))
      (behaviors (compute_behaviors create_behavior_engine "2025-01-01T15:00:00" []
                    scenario_A))
  = [ ("STB_01", "ACTIVE", Some 0.75%float) ].
Proof. vm_compute. reflexivity. Qed.

(** Scenario B: STB_02 is dropped by recency, no ambiguity marker appears. *)
Example scenario_B_result :
  map (fun b => (code b, status b))
      (behaviors (compute_behaviors create_behavior_engine "2025-01-01T15:00:00" []
                    scenario_B_text))
  = [ ("STB_01", "ACTIVE") ].
Proof. vm_compute. reflexivity. Qed.

(** PSY_01 and PSY_02 in the same window collapse into AMBIGU_PSY. *)
Example scenario_psy_result :
  map (fun b => (code b, status b, details b))
      (behaviors (compute_behaviors create_behavior_engine "2025-01-01T15:00:00" []
                    scenario_psy))
  = [ ("AMBIGU_PSY", "AMBIGUOUS", Some ["PSY_01"; "PSY_02"]) ].
Proof. vm_compute. reflexivity. Qed.

(** Scenario C: STB_01 and PSY_01 give PTN_01 with sorted sources. *)
Example scenario_C_result (listing : list string -> list string) :
  (forall s, Permutation (listing s) s) ->
  compute_patterns create_pattern_engine listing
    [ active_dict "STB_01" "last_15_min" "stability";
      active_dict "PSY_01" "last_15_min" "psychology" ] None
  = [ {| pattern_code := "PTN_01";
         label := "Perte de contrôle sous pression";
         sources := ["PSY_01"; "STB_01"];
         pattern_engine.category := "composite" |} ].
Proof.
  intros H.
  rewrite (compute_patterns_listing _ listing (fun s => s) _ _ H
             (fun s => Permutation_refl s)).
  vm_compute. reflexivity.
Qed.

(** Scenario D: the triple PTN_03 is found and its doubles are left out. *)
Example scenario_D_result (listing : list string -> list string) :
  map pattern_code
      (compute_patterns create_pattern_engine listing
         [ active_dict "STB_01" "last_15_min" "stability";
           active_dict "PSY_01" "last_15_min" "psychology";
           active_dict "INT_02" "last_15_min" "intensity" ] None)
  = [ "PTN_03" ].
Proof. vm_compute. reflexivity. Qed.

(** Scenario E: no behavior gives the two default phases and no pattern. *)
Example scenario_E_result (listing : list string -> list string) :
  reconstruct [] = [ "Phase 1 : Phase de stabilisation"; "Phase 2 : Phase finale" ]
  /\ compute_patterns create_pattern_engine listing [] None = [].
Proof. split; vm_compute; reflexivity. Qed.

(** The rupture signature alone, and with a third final behavior. *)
Example rupture_result :
  reconstruct rupture_match
  = [ "Phase 1 : Contrôle tactique"; "Phase 2 : Rupture structurelle";
      "Phase 3 : Frustration finale" ].
Proof. vm_compute. reflexivity. Qed.

End Scenarios.

(* ======================================================================= *)
(** * Further properties of the engines and of their callers *)
(* ======================================================================= *)


Section SortFacts.
Context {A : Type} (le : A -> A -> bool).
Hypothesis le_total : forall a b, le a b = true \/ le b a = true.
Hypothesis le_trans : forall a b c, le a b = true -> le b c = true -> le a c = true.




End SortFacts.

Section FoldFacts.
Context {X : Type} (p : X -> bool) (k : X -> string).


End FoldFacts.

Section PatternFacts.
Import pattern_engine.










Lemma set_update_length (xs s : list string) :
  length s <= length (Py.set_update s xs).
Proof.
  unfold Py.set_update. revert s. induction xs as [| x xs IH]; intro s; simpl; [lia |].
  etransitivity; [| apply IH].
  unfold Py.set_add. destruct (Py.mem x s); [lia |]. rewrite length_app. simpl. lia.
Qed.












End PatternFacts.

Section PatternProperties.
Import pattern_engine.

















End PatternProperties.

Section VisionProperties.
Import definitions vision_engine pattern_engine.







End VisionProperties.

Section QualityControlProperties.
Import pattern_engine quality_control.










End QualityControlProperties.

Section StableSort.
Context {A : Type} (key : A -> nat) (q : A -> bool).
Hypothesis q_key : forall a b, q a = true -> q b = true -> key a = key b.



End StableSort.

Section ListFacts2.
Context {A B : Type}.





End ListFacts2.

Section ScanFacts.
Import definitions behavior_engine.











End ScanFacts.

Section ResolutionFacts.
Import definitions behavior_engine.










End ResolutionFacts.

Section ResolutionProperties.
Import definitions behavior_engine.




End ResolutionProperties.

Section RegistryFacts.
Import definitions behavior_engine.




End RegistryFacts.

Section EngineProperties.
Import definitions behavior_engine.






End EngineProperties.

Section MergeFacts.
Import definitions behavior_engine.








End MergeFacts.

Section MergeProperties.
Import definitions behavior_engine.


End MergeProperties.

Section FlatFacts.
Import definitions behavior_engine.


End FlatFacts.

Section FlatProperties.
Import definitions behavior_engine.



End FlatProperties.

Section SplitFacts.
Import definitions behavior_engine.






Lemma flat_map_ext_in {G T : Type} (f f' : G -> list T) (g : list G) :
  (forall x, In x g -> f x = f' x) -> flat_map f g = flat_map f' g.
Proof.
  induction g as [| x g IH]; intro H; simpl; [reflexivity |].
  rewrite (H x) by now left. f_equal. apply IH. intros y Hy. apply H. now right.
Qed.





End SplitFacts.

Section SplitProperties.
Import definitions behavior_engine.






End SplitProperties.

Section DictFacts.
Context {V : Type}.




End DictFacts.

Section SignalKeyFacts.
Import definitions behavior_engine.









End SignalKeyFacts.

Section SignalKeyProperties.
Import definitions behavior_engine.





End SignalKeyProperties.

Section FlowFacts2.
Import match_flow.








End FlowFacts2.

Section FlowProperties.
Import match_flow.



End FlowProperties.

Section FlowOrder.
Import match_flow.




End FlowOrder.

Section PipelineProperties.
Import definitions behavior_engine.





End PipelineProperties.

Section ValueFacts.
Import definitions.
Context {A : Type}.

Lemma value_induction (P : memory_engine.Value A -> Prop) :
  (forall a, P (memory_engine.Leaf a)) ->
  (forall entries, Forall (fun kv => P (snd kv)) entries ->
                   P (memory_engine.Dict entries)) ->
  forall v, P v.
Proof.
  intros Hleaf Hdict.
  fix IH 1. intros [a | entries]; [apply Hleaf | apply Hdict].
  induction entries as [| kv rest IHrest]; constructor; [apply IH | exact IHrest].
Qed.

Lemma check_dict_cons (key : string) (value : memory_engine.Value A)
      (rest : list (string * memory_engine.Value A)) (prefix : string)
      (found : list string) :
  memory_engine.check_dict (memory_engine.Dict ((key, value) :: rest)) prefix found
  = memory_engine.check_dict (memory_engine.Dict rest) prefix
      (memory_engine.check_dict value (memory_engine.full_key_of prefix key)
         (if is_forbidden_memory_key key
          then Py.set_add (memory_engine.full_key_of prefix key) found
          else found)).
Proof. reflexivity. Qed.




Lemma set_add_not_nil (x : string) (s : list string) : Py.set_add x s <> [].
Proof.
  intro E. assert (H : In x (Py.set_add x s)) by (apply set_add_In; now left).
  rewrite E in H. destruct H.
Qed.

Lemma check_keeps (value : memory_engine.Value A) :
  forall prefix found,
    found <> [] -> memory_engine.check_dict value prefix found <> [].
Proof.
  induction value as [a | entries IH] using value_induction; intros prefix found Hne;
    [exact Hne |].
  revert found Hne.
  induction entries as [| [key value] rest IHrest]; intros found Hne; [exact Hne |].
  apply Forall_cons_iff in IH. destruct IH as [Hv Hrest]. simpl in Hv.
  rewrite check_dict_cons. apply IHrest; [exact Hrest |]. apply Hv.
  destruct (is_forbidden_memory_key key); [apply set_add_not_nil | exact Hne].
Qed.




End ValueFacts.

Section MemoryProperties.
Import definitions.


End MemoryProperties.

Section FifoFacts.




End FifoFacts.

Section FifoProperties.


End FifoProperties.
